(** * azureml-workshop-2020: the explainability and enterprise-readiness notebooks

    A shallow embedding of the notebook cells that carry logic of their own:
    the scoring script [score.py] written out by the enterprise-readiness
    notebook, its two create-or-reuse provisioning cells, the raw HTTP
    request of its consuming cell, and the data-preparation and
    local-explanation cells of the explainability notebook.

    Third-party code (scikit-learn, pandas, the json module,
    inference-schema, the cloud SDK) is modelled by its documented
    behaviour or taken as a parameter. *)

From Stdlib Require Import ZArith List Ascii String DecimalString Permutation.
From Stdlib Require Import DecimalPos DecimalFacts.
From stdpp Require Import base option list strings sorting gmap.

#[local] Set Warnings "-register-all,-clear-no-such-hyp".
Local Open Scope string_scope.
Local Open Scope Z_scope.

(** ** Python values *)

Module Py.

(** The JSON-compatible fragment of Python objects.  A [str] is a sequence of
    code points below 256 (one [ascii] each); floats are not modelled.  A
    [dict] keeps its insertion order. *)
Inductive pyval : Type :=
| VNone : pyval
| VBool : bool -> pyval
| VInt : Z -> pyval
| VStr : string -> pyval
| VList : list pyval -> pyval
| VDict : list (string * pyval) -> pyval.

(** Exception classes that the notebooks name or provoke. *)
Inductive exn_class : Type :=
| ComputeTargetException
| NameError
| KeyError
| IndexError
| ValueError
| AttributeError
| TypeError
| OtherException (name : string).

Global Instance exn_class_eq_dec : EqDecision exn_class.
Proof. solve_decision. Defined.

(** An instance of (a subclass of) [Exception]: its class and [str(e)].
    What is not an [Exception] ([KeyboardInterrupt], [SystemExit]) comes
    from outside the program and is not modelled. *)
Record exn : Type := mkExn { exn_cls : exn_class; exn_str : string }.

(** [str(e)] *)
Definition str (e : exn) : string := exn_str e.

(** The outcome of a call: a raised exception or a returned value. *)
Inductive outcome (A : Type) : Type :=
| Raise : exn -> outcome A
| Return : A -> outcome A.
Global Arguments Raise {A} _.
Global Arguments Return {A} _.

Definition raises {A} (o : outcome A) : Prop :=
  match o with Raise _ => True | Return _ => False end.

(** Sequencing of two statements: the second runs when the first returns. *)
Definition bind {A B} (o : outcome A) (k : A -> outcome B) : outcome B :=
  match o with
  | Raise e => Raise e
  | Return a => k a
  end.

(** [try: body  except <classes matched by catches> as e: handler e] *)
Definition try_except {A} (body : outcome A) (catches : exn -> bool)
    (handler : exn -> outcome A) : outcome A :=
  match body with
  | Raise e => if catches e then handler e else Raise e
  | Return a => Return a
  end.

(** [isinstance(e, Exception)]: every modelled exception is one. *)
Definition is_Exception (e : exn) : bool := true.

(** [key in d] for a dict; [False] for other objects. *)
Definition has_key (k : string) (v : pyval) : bool :=
  match v with
  | VDict items => bool_decide (k ∈ items.*1)
  | _ => false
  end.

(** [d[k]] for a dict (the last binding wins, as when a dict is built). *)
Definition getitem (k : string) (v : pyval) : option pyval :=
  match v with
  | VDict items =>
      (fun r => snd (snd r)) <$>
        list_find (fun kv : string * pyval => fst kv = k) (reverse items)
  | _ => None
  end.

(** [list(d.keys())] *)
Definition keys (v : pyval) : list string :=
  match v with
  | VDict items => items.*1
  | _ => []
  end.

End Py.
Export Py.

Global Instance outcome_ret : MRet outcome := fun A => @Return A.
Global Instance outcome_bind : MBind outcome := fun A B k o => Py.bind o k.

(** ** The json module *)

Module Json.

(** The double quote character *)
Definition dquote : ascii := "034"%char.

Definition hex_digit (n : N) : ascii :=
  match n with
  | 0 => "0" | 1 => "1" | 2 => "2" | 3 => "3" | 4 => "4" | 5 => "5"
  | 6 => "6" | 7 => "7" | 8 => "8" | 9 => "9" | 10 => "a" | 11 => "b"
  | 12 => "c" | 13 => "d" | 14 => "e" | _ => "f"
  end%N%char.

(** [\u00XX] for a code point below 256 *)
Definition u_escape (c : ascii) : string :=
  let n := N_of_ascii c in
  String "\" (String "u" (String "0" (String "0"
    (String (hex_digit (n / 16))
      (String (hex_digit (n mod 16)) EmptyString))))).

(** One character of [json.encoder.py_encode_basestring_ascii]: the
    backslash, the double quote and everything outside [' '..'~'] are
    escaped. *)
Definition escape_char (c : ascii) : string :=
  match c with
  | "\"%char => String "\" (String "\" EmptyString)
  | "034"%char => String "\" (String dquote EmptyString)
  | "008"%char => String "\" (String "b" EmptyString)
  | "012"%char => String "\" (String "f" EmptyString)
  | "010"%char => String "\" (String "n" EmptyString)
  | "013"%char => String "\" (String "r" EmptyString)
  | "009"%char => String "\" (String "t" EmptyString)
  | _ => if ((32 <=? N_of_ascii c) && (N_of_ascii c <=? 126))%N
         then String c EmptyString else u_escape c
  end.

Fixpoint escape (s : string) : string :=
  match s with
  | EmptyString => EmptyString
  | String c s' => escape_char c ++ escape s'
  end.

Definition quote (s : string) : string :=
  String dquote (escape s ++ String dquote EmptyString).

(** [repr] of an int *)
Definition int_repr (z : Z) : string := NilZero.string_of_int (Z.to_int z).

(** [sep.join(parts)] *)
Definition join (sep : string) (parts : list string) : string :=
  String.concat sep parts.

(** [json.dumps(v)] with the default separators [", "] and [": "]. *)
Fixpoint dumps (v : pyval) : string :=
  match v with
  | VNone => "null"
  | VBool true => "true"
  | VBool false => "false"
  | VInt z => int_repr z
  | VStr s => quote s
  | VList l => "[" ++ join ", " (map dumps l) ++ "]"
  | VDict items =>
      "{" ++ join ", "
               (map (fun kv => quote (fst kv) ++ ": " ++ dumps (snd kv)) items)
          ++ "}"
  end.

(** *** Decoding *)

Definition is_ws (c : ascii) : bool :=
  match c with
  | " "%char | "009"%char | "010"%char | "013"%char => true
  | _ => false
  end.

Fixpoint skip_ws (s : string) : string :=
  match s with
  | String c s' => if is_ws c then skip_ws s' else s
  | EmptyString => EmptyString
  end.

Definition hex_value (c : ascii) : option N :=
  let n := N_of_ascii c in
  if ((48 <=? n) && (n <=? 57))%N then Some (n - 48)%N
  else if ((97 <=? n) && (n <=? 102))%N then Some (n - 87)%N
  else if ((65 <=? n) && (n <=? 70))%N then Some (n - 55)%N
  else None.

(** The body of a string literal, after its opening quote: the decoded
    text and what follows the closing quote.  Escapes above [ÿ] are
    outside the modelled [str] and are refused. *)
Fixpoint scan_string (s : string) : option (string * string) :=
  match s with
  | EmptyString => None
  | String "034"%char rest => Some (EmptyString, rest)
  | String "\"%char (String e rest) =>
      match e with
      | "u"%char =>
          match rest with
          | String "0" (String "0" (String h (String l rest'))) =>
              hi ← hex_value h;
              lo ← hex_value l;
              '(t, r) ← scan_string rest';
              Some (String (ascii_of_N (16 * hi + lo)) t, r)
          | _ => None
          end
      | _ =>
          c ← match e with
              | "034"%char => Some "034"%char
              | "\"%char => Some "\"%char
              | "/"%char => Some "/"%char
              | "b"%char => Some "008"%char
              | "f"%char => Some "012"%char
              | "n"%char => Some "010"%char
              | "r"%char => Some "013"%char
              | "t"%char => Some "009"%char
              | _ => None
              end;
          '(t, r) ← scan_string rest;
          Some (String c t, r)
      end
  | String c rest =>
      if (N_of_ascii c <? 32)%N then None
      else '(t, r) ← scan_string rest; Some (String c t, r)
  end.

Definition digit_value (c : ascii) : option Z :=
  let n := N_of_ascii c in
  if ((48 <=? n) && (n <=? 57))%N then Some (Z.of_N n - 48) else None.

(** The digits at the head of [s], accumulated onto [acc]. *)
Fixpoint scan_digits (s : string) (acc : Z) : Z * string :=
  match s with
  | String c rest =>
      match digit_value c with
      | Some d => scan_digits rest (10 * acc + d)
      | None => (acc, s)
      end
  | EmptyString => (acc, s)
  end.

(** An integer literal; a fraction or an exponent makes it a float, which
    is refused, and so is a leading zero. *)
Definition scan_int (s : string) : option (Z * string) :=
  let '(neg, s1) := match s with
                    | String "-" r => (true, r)
                    | _ => (false, s)
                    end in
  match s1 with
  | String c r =>
      d ← digit_value c;
      let '(n, rest) := scan_digits s1 0 in
      match rest with
      | String "." _ | String "e" _ | String "E" _ => None
      | _ =>
          if (d =? 0) && negb (String.length s1 - String.length rest =? 1)%nat
          then None
          else Some (if neg : bool then - n else n, rest)
      end
  | EmptyString => None
  end.

(** [d[k] = v] on an insertion-ordered dict *)
Fixpoint dict_set (k : string) (v : pyval) (d : list (string * pyval))
    : list (string * pyval) :=
  match d with
  | [] => [(k, v)]
  | (k', v') :: d' =>
      if decide (k' = k) then (k, v) :: d' else (k', v') :: dict_set k v d'
  end.

Section containers.
(** The decoder for one value, used for the items of a container. *)
Variable value : string -> option (pyval * string).

(** The items of an array after its opening bracket; [n] bounds their
    number. *)
Fixpoint scan_elements (n : nat) (s : string) (acc : list pyval)
    : option (pyval * string) :=
  match n with
  | O => None
  | S n' =>
      '(v, r) ← value s;
      match skip_ws r with
      | String "," r' => scan_elements n' r' (acc ++ [v])%list
      | String "]" r' => Some (VList (acc ++ [v])%list, r')
      | _ => None
      end
  end.

(** The members of an object after its opening brace. *)
Fixpoint scan_members (n : nat) (s : string) (acc : list (string * pyval))
    : option (pyval * string) :=
  match n with
  | O => None
  | S n' =>
      match skip_ws s with
      | String "034"%char r =>
          '(k, r1) ← scan_string r;
          match skip_ws r1 with
          | String ":" r2 =>
              '(v, r3) ← value r2;
              match skip_ws r3 with
              | String "," r4 => scan_members n' r4 (dict_set k v acc)
              | String "}" r4 => Some (VDict (dict_set k v acc), r4)
              | _ => None
              end
          | _ => None
          end
      | _ => None
      end
  end.
End containers.

(** One JSON value at the head of [s]; [fuel] bounds the nesting depth and
    the number of items of a container. *)
Fixpoint scan_value (fuel : nat) (s : string) : option (pyval * string) :=
  match fuel with
  | O => None
  | S fuel' =>
      match skip_ws s with
      | String "{" r =>
          match skip_ws r with
          | String "}" r' => Some (VDict [], r')
          | _ => scan_members (scan_value fuel') fuel' r []
          end
      | String "[" r =>
          match skip_ws r with
          | String "]" r' => Some (VList [], r')
          | _ => scan_elements (scan_value fuel') fuel' r []
          end
      | String "034"%char r =>
          '(t, r') ← scan_string r; Some (VStr t, r')
      | String "t" (String "r" (String "u" (String "e" r))) =>
          Some (VBool true, r)
      | String "f" (String "a" (String "l" (String "s" (String "e" r)))) =>
          Some (VBool false, r)
      | String "n" (String "u" (String "l" (String "l" r))) =>
          Some (VNone, r)
      | s' => '(z, r) ← scan_int s'; Some (VInt z, r)
      end
  end.

(** [json.loads(s)]: one value, then only white space; anything else
    raises [JSONDecodeError], a [ValueError]. *)
Definition loads (s : string) : outcome pyval :=
  match scan_value (S (String.length s)) s with
  | Some (v, r) =>
      match skip_ws r with
      | EmptyString => Return v
      | _ => Raise (mkExn ValueError "Extra data")
      end
  | None => Raise (mkExn ValueError "Expecting value")
  end.

End Json.


(** ** pandas: the operations the notebooks call *)

Module Pandas.

Inductive dtype : Type := int64 | float64 | bool_ | object_.

Global Instance dtype_eq_dec : EqDecision dtype.
Proof. solve_decision. Defined.

(** A column: its dtype and its values, one per row, in row order. *)
Record Series : Type := mkSeries { s_dtype : dtype; s_values : list pyval }.

(** A table: the row labels and the labelled columns, in column order.
    Column labels may repeat, as pandas allows. *)
Record DataFrame : Type := mkDataFrame {
  df_index : list pyval;
  df_data : list (string * Series)
}.

(** [df.columns] *)
Definition columns (df : DataFrame) : list string := (df_data df).*1.

(** [df.iteritems()]: the (label, column) pairs in column order. *)
Definition iteritems (df : DataFrame) : list (string * Series) := df_data df.

(** *** [repr] of a [str]

    Python writes a [str] between single quotes, or between double quotes
    when it holds a single quote and no double quote; the quote in use and
    the backslash get a backslash, tab, line feed and carriage return their
    letter, and every other code point that is not printable its [\xNN]. *)

(** [c.isprintable()] for a code point below 256. *)
Definition printable (c : ascii) : bool :=
  let n := N_of_ascii c in
  ((32 <=? n) && (n <? 127) || (161 <=? n) && negb (n =? 173))%N.

Definition x_escape (c : ascii) : string :=
  let n := N_of_ascii c in
  String "\" (String "x" (String (Json.hex_digit (n / 16))
    (String (Json.hex_digit (n mod 16)) EmptyString))).

Definition repr_char (quote c : ascii) : string :=
  if Ascii.eqb c quote || Ascii.eqb c "\" then String "\" (String c EmptyString)
  else if Ascii.eqb c "009" then "\t"
  else if Ascii.eqb c "010" then "\n"
  else if Ascii.eqb c "013" then "\r"
  else if printable c then String c EmptyString
  else x_escape c.

Fixpoint contains (c : ascii) (s : string) : bool :=
  match s with
  | EmptyString => false
  | String c' s' => Ascii.eqb c c' || contains c s'
  end.

Definition repr_quote (s : string) : ascii :=
  if contains "'" s && negb (contains Json.dquote s) then Json.dquote else "'"%char.

Fixpoint repr_body (quote : ascii) (s : string) : string :=
  match s with
  | EmptyString => String quote EmptyString
  | String c s' => repr_char quote c ++ repr_body quote s'
  end.

(** [repr(s)] *)
Definition repr_str (s : string) : string :=
  let quote := repr_quote s in String quote (repr_body quote s).

(** [str] of a numpy array of labels: the [repr] of each label, a space
    between two labels.  (numpy starts a new line once a line would pass 75
    columns; that is left out, a single label never breaks.) *)
Definition str_labels (ls : list string) : string :=
  "[" ++ Json.join " " (map repr_str ls) ++ "]".

(** [df.drop(labels, axis=1)]: a label absent from the columns raises
    [KeyError(f"{labels[mask]} not found in axis")], and [str] of a
    [KeyError] is the [repr] of its message; otherwise every column
    carrying one of the labels goes and the index and the other columns
    stay as they are. *)
Definition drop (labels : list string) (df : DataFrame) : outcome DataFrame :=
  match filter (fun l => l ∉ columns df) labels with
  | [] =>
      Return {| df_index := df_index df;
                df_data := filter (fun c => fst c ∉ labels) (df_data df) |}
  | missing =>
      Raise (mkExn KeyError (repr_str (str_labels missing ++ " not found in axis")))
  end.

(** What [df[label]] hands back: the column, when one column carries the
    label; the table of the columns that carry it, when several do. *)
Inductive selection : Type :=
| OneColumn (column : Series)
| SeveralColumns (table : DataFrame).

(** [df[label]] for a column label; a label that no column carries raises
    [KeyError(label)]. *)
Definition getitem_column (label : string) (df : DataFrame) : outcome selection :=
  match filter (fun c : string * Series => fst c = label) (df_data df) with
  | [] => Raise (mkExn KeyError (repr_str label))
  | [c] => Return (OneColumn (snd c))
  | cs => Return (SeveralColumns {| df_index := df_index df; df_data := cs |})
  end.

(** [Index.unique()]: the first occurrence of each label, in order. *)
Fixpoint unique (l : list string) : list string :=
  match l with
  | [] => []
  | x :: l' => x :: filter (fun y => y ≠ x) (unique l')
  end.

(** [algorithms.safe_sort] on labels that are all strings: ascending in
    Python's string order, which compares code points. *)
Definition safe_sort (l : list string) : list string :=
  merge_sort String.le l.

(** [Index.difference(other)] with the default [sort=None]: the distinct
    labels of the index that are not in [other], sorted. *)
Definition Index_difference (idx other : list string) : list string :=
  safe_sort (filter (fun l => l ∉ other) (unique idx)).

(** A row of a table: its label and its cells, in column order. *)
Definition row : Type := pyval * list (string * pyval).

Definition nrows (df : DataFrame) : nat := length (df_index df).

(** The cells at position [i], column by column; a column shorter than
    the index contributes [None] there. *)
Definition cells_at (df : DataFrame) (i : nat) : list (string * pyval) :=
  map (fun c => (fst c, default VNone (s_values (snd c) !! i))) (df_data df).

(** The row at position [i] ([df.iloc[i]]). *)
Definition row_at (df : DataFrame) (i : nat) : option row :=
  lbl ← df_index df !! i;
  Some (lbl, cells_at df i).

(** The rows in positional order. *)
Definition rows (df : DataFrame) : list row :=
  omap (row_at df) (seq 0 (nrows df)).

(** [df[:n]] for [n >= 0]: the rows at positions [0 .. n-1] that exist. *)
Definition head_rows (n : nat) (df : DataFrame) : DataFrame :=
  {| df_index := take n (df_index df);
     df_data := map (fun c => (fst c, mkSeries (s_dtype (snd c))
                                               (take n (s_values (snd c)))))
                    (df_data df) |}.

(** *** Construction from records and serialisation *)

(** The dtype pandas infers for a column of the modelled values. *)
Definition infer_dtype (vs : list pyval) : dtype :=
  match vs with
  | [] => object_
  | _ =>
      if forallb (fun v => match v with VInt _ => true | _ => false end) vs
      then int64
      else if forallb (fun v => match v with VBool _ => true | _ => false end) vs
      then bool_
      else object_
  end.

(** [record[k]], or nothing when the record has no such key. *)
Definition record_get (k : string) (record : list (string * pyval))
    : option pyval :=
  snd <$> find (fun kv => bool_decide (fst kv = k)) record.

(** [pd.DataFrame(data=records)] for a list of dicts: the columns are the
    keys in order of first appearance, the index is [0 .. n-1], and a
    column holds the values of its key as they are.  This is the table of
    pandas when every record has every key and no value is [None]; a cell
    that is left out or [None] is a float NaN in pandas wherever the other
    cells of its column are numbers, and floats are not modelled: the cell
    is [None] here. *)
Definition DataFrame_of_records (records : list (list (string * pyval)))
    : DataFrame :=
  {| df_index := map (fun i => VInt (Z.of_nat i)) (seq 0 (length records));
     df_data :=
       map (fun k =>
              let vs := map (fun r => default VNone (record_get k r)) records in
              (k, mkSeries (infer_dtype vs) vs))
           (unique (concat (map (map fst) records))) |}.

(** One character of the ujson encoder: as [json] does, and the forward
    slash is escaped too. *)
Definition ujson_escape_char (c : ascii) : string :=
  match c with
  | "/"%char => String "\" (String "/" EmptyString)
  | "127"%char => String c EmptyString
  | _ => Json.escape_char c
  end.

Fixpoint ujson_escape (s : string) : string :=
  match s with
  | EmptyString => EmptyString
  | String c s' => ujson_escape_char c ++ ujson_escape s'
  end.

Definition ujson_quote (s : string) : string :=
  String Json.dquote (ujson_escape s ++ String Json.dquote EmptyString).

(** The ujson encoder of [to_json]: no white space between tokens. *)
Fixpoint ujson_dumps (v : pyval) : string :=
  match v with
  | VNone => "null"
  | VBool true => "true"
  | VBool false => "false"
  | VInt z => Json.int_repr z
  | VStr s => ujson_quote s
  | VList l => "[" ++ Json.join "," (map ujson_dumps l) ++ "]"
  | VDict items =>
      "{" ++ Json.join ","
               (map (fun kv => ujson_quote (fst kv) ++ ":" ++ ujson_dumps (snd kv))
                    items)
          ++ "}"
  end.

(** A row label as an object key: [str(label)]. *)
Definition label_key (l : pyval) : string :=
  match l with
  | VInt z => Json.int_repr z
  | VStr s => s
  | VBool true => "True"
  | VBool false => "False"
  | _ => "None"
  end.

(** The layouts of [to_json]'s [orient] argument. *)
Inductive orient : Type :=
| orient_columns | orient_index | orient_records | orient_values.

(** The object that [to_json] writes for each layout:
    columns [{column: {row label: value}}], index
    [{row label: {column: value}}], records [[{column: value}, ...]],
    values [[[value, ...], ...]]. *)
Definition json_layout (o : orient) (df : DataFrame) : pyval :=
  match o with
  | orient_columns =>
      VDict (map (fun c =>
                    (fst c,
                     VDict (zip_with (fun l v => (label_key l, v))
                                     (df_index df) (s_values (snd c)))))
                 (df_data df))
  | orient_index =>
      VDict (map (fun r : row => (label_key (fst r), VDict (snd r))) (rows df))
  | orient_records => VList (map (fun r : row => VDict (snd r)) (rows df))
  | orient_values =>
      VList (map (fun r : row => VList (map snd (snd r))) (rows df))
  end.

Definition orient_name (o : orient) : string :=
  match o with
  | orient_columns => "columns"
  | orient_index => "index"
  | orient_records => "records"
  | orient_values => "values"
  end.

(** [df.to_json(orient=o)]; the keyed layouts need unique labels. *)
Definition to_json_orient (o : orient) (df : DataFrame) : outcome string :=
  let unique_columns := bool_decide (NoDup (columns df)) in
  let unique_index := bool_decide (NoDup (map label_key (df_index df))) in
  let needs_index :=
    match o with orient_columns | orient_index => true | _ => false end in
  let needs_columns :=
    match o with orient_values => false | _ => true end in
  if needs_index && negb unique_index
  then Raise (mkExn ValueError
                ("DataFrame index must be unique for orient='"
                 ++ orient_name o ++ "'."))
  else if needs_columns && negb unique_columns
  then Raise (mkExn ValueError
                ("DataFrame columns must be unique for orient='"
                 ++ orient_name o ++ "'."))
  else Return (ujson_dumps (json_layout o df)).

(** [df.to_json()]: for a DataFrame the default orient is ['columns']. *)
Definition to_json (df : DataFrame) : outcome string :=
  to_json_orient orient_columns df.

End Pandas.

(** ** The explainability notebook *)

Module Explain.
Import Pandas.

(** The four drops of the data-preparation cell, in the order of the cell. *)
Definition drop_uninformative (attritionData : DataFrame) : outcome DataFrame :=
  attritionData ← drop ["EmployeeCount"] attritionData;
  attritionData ← drop ["EmployeeNumber"] attritionData;
  attritionData ← drop ["Over18"] attritionData;
  drop ["StandardHours"] attritionData.

(** The whole cell: the drops, then [target] and [attritionXData]. *)
Definition prepare (attritionData : DataFrame)
    : outcome (selection * DataFrame) :=
  attritionData ← drop_uninformative attritionData;
  target ← getitem_column "Attrition" attritionData;
  attritionXData ← drop ["Attrition"] attritionData;
  mret (target, attritionXData).

(** The loop that collects the labels of the [object] columns: one
    [append] for each such column, in column order. *)
Definition categorical (attritionXData : DataFrame) : list string :=
  fold_left
    (fun categorical cv =>
       if decide (s_dtype (snd cv) = object_)
       then (categorical ++ [fst cv])%list else categorical)
    (iteritems attritionXData) [].

(** [numerical = attritionXData.columns.difference(categorical)] *)
Definition numerical (attritionXData : DataFrame) : list string :=
  Index_difference (columns attritionXData) (categorical attritionXData).

(** A fitted pipeline: scikit-learn predicts each row from its own cells. *)
Record Pipeline : Type := mkPipeline {
  predict_one : list (string * pyval) -> pyval
}.

(** [clf.predict(x)] for a table of one row or more: one prediction per
    row, in row order.  (scikit-learn refuses a table without rows.) *)
Definition predict (clf : Pipeline) (x : DataFrame) : list pyval :=
  map (fun r : row => predict_one clf (snd r)) (rows x).

Definition instance_num : nat := 1.

(** [local_explanation = explainer.explain_local(x_test[:instance_num])] *)
Definition local_explanation {E : Type} (explain_local : DataFrame -> E)
    (x_test : DataFrame) : E :=
  explain_local (head_rows instance_num x_test).

(** [prediction_value = clf.predict(x_test)[instance_num]] *)
Definition prediction_value (clf : Pipeline) (x_test : DataFrame)
    : outcome pyval :=
  match predict clf x_test !! instance_num with
  | Some v => Return v
  | None =>
      Raise (mkExn IndexError
               ("index 1 is out of bounds for axis 0 with size "
                ++ Json.int_repr (Z.of_nat (length (predict clf x_test)))))
  end.

End Explain.

(** ** score.py, the entry script of the deployed service *)

Module Score.
Import Pandas.

(** An entry of the list that [tolist] makes of a prediction array: a
    value that [json.dumps] writes, or an object of a type that it
    refuses. *)
Inductive entry : Type :=
| Plain (value : pyval)
| Opaque (type_name : string).

(** What [model.predict] hands back: an array of one axis or more with
    its entries in row order, as the estimators of scikit-learn do, or an
    object of another type. *)
Inductive prediction : Type :=
| Array (entries : list entry)
| NotArray (type_name : string).

(** [result.tolist()]: the list of the entries of an array; an object
    without the method raises [AttributeError]. *)
Definition tolist (result : prediction) : outcome (list entry) :=
  match result with
  | Array entries => Return entries
  | NotArray type_name =>
      Raise (mkExn AttributeError
               ("'" ++ type_name ++ "' object has no attribute 'tolist'"))
  end.

(** The entries as [json.dumps] meets them, in order: the first one that
    it cannot write raises [TypeError], with the message of Python 3.6,
    the version of the service's environment. *)
Fixpoint serializable (entries : list entry) : outcome (list pyval) :=
  match entries with
  | [] => Return []
  | Plain value :: entries' =>
      values ← serializable entries'; mret (value :: values)
  | Opaque type_name :: _ =>
      Raise (mkExn TypeError
               ("Object of type '" ++ type_name ++ "' is not JSON serializable"))
  end.

(** [json.dumps({"result": entries})] *)
Definition dumps_result (entries : list entry) : outcome string :=
  values ← serializable entries;
  mret (Json.dumps (VDict [("result", VList values)])).

(** The unpickled model: [predict] returns or raises. *)
Record Model : Type := mkModel { predict : DataFrame -> outcome prediction }.

(** The module's global [model], unbound until [init] has run. *)
Record globals : Type := mkGlobals { model : option Model }.

(** Evaluating [model.predict(data)]: an unbound global raises [NameError]. *)
Definition model_predict (g : globals) (data : DataFrame) : outcome prediction :=
  match model g with
  | Some m => predict m data
  | None => Raise (mkExn NameError "name 'model' is not defined")
  end.

(** The function [run] as it is written, under its decorators: the three
    calls of the [try] block, and the handler of [except Exception]. *)
Definition run_body (g : globals) (data : DataFrame) : outcome pyval :=
  try_except
    (result ← model_predict g data;
     entries ← tolist result;
     text ← dumps_result entries;
     mret (VStr text))
    is_Exception
    (fun e =>
       let result := str e in
       mret (VStr (Json.dumps (VDict [("error", VStr result)])))).

(** The parameter type handed to [input_schema], here
    [PandasParameterType(input_sample)]: its conversion of the request's
    [data] to a table is code of the inference-schema package; it returns
    the table or raises. *)
Record ParameterType : Type := mkParameterType {
  deserialize_input : pyval -> outcome DataFrame
}.

(** [@input_schema('data', param_type)]: the argument is converted, outside
    the [try] of the function, and the function is called on the table. *)
Definition input_schema (param_type : ParameterType)
    (user_run : DataFrame -> outcome pyval) (data : pyval) : outcome pyval :=
  data ← deserialize_input param_type data;
  user_run data.

(** [@output_schema(...)] records the sample output and calls through. *)
Definition output_schema (user_run : DataFrame -> outcome pyval)
    : DataFrame -> outcome pyval :=
  user_run.

(** [run], as the service calls it on the [data] of a request. *)
Definition run (param_type : ParameterType) (g : globals) (data : pyval)
    : outcome pyval :=
  input_schema param_type (output_schema (run_body g)) data.

End Score.

(** ** The consuming cell of the enterprise-readiness notebook *)

Module Client.
Import Pandas.

(** What [requests] is asked to send. *)
Record Request : Type := mkRequest {
  method : string;
  url : string;
  headers : list (string * string);
  body : string
}.

(** [requests.post(url, data, headers=headers)] *)
Definition requests_post (url data : string) (headers : list (string * string))
    : Request :=
  {| method := "POST"; url := url; headers := headers; body := data |}.

(** The employee of the cell, the one that is not an attrition risk. *)
Definition sample_record : list (string * pyval) :=
  [("Age", VInt 41); ("BusinessTravel", VStr "Travel_Rarely");
   ("DailyRate", VInt 1102); ("Department", VStr "Sales");
   ("DistanceFromHome", VInt 1); ("Education", VInt 2);
   ("EducationField", VStr "Life Sciences");
   ("EnvironmentSatisfaction", VInt 2); ("Gender", VStr "Female");
   ("HourlyRate", VInt 94); ("JobInvolvement", VInt 3); ("JobLevel", VInt 2);
   ("JobRole", VStr "Sales Executive"); ("JobSatisfaction", VInt 4);
   ("MaritalStatus", VStr "Single"); ("MonthlyIncome", VInt 5993);
   ("MonthlyRate", VInt 19479); ("NumCompaniesWorked", VInt 8);
   ("OverTime", VInt 0); ("PercentSalaryHike", VInt 11);
   ("PerformanceRating", VInt 3); ("RelationshipSatisfaction", VInt 1);
   ("StockOptionLevel", VInt 0); ("TotalWorkingYears", VInt 8);
   ("TrainingTimesLastYear", VInt 0); ("WorkLifeBalance", VInt 1);
   ("YearsAtCompany", VInt 6); ("YearsInCurrentRole", VInt 4);
   ("YearsSinceLastPromotion", VInt 0); ("YearsWithCurrManager", VInt 5)].

(** The token cell and the request cell: [token] is what
    [aks_service.get_token()] returned, [scoring_uri] is
    [aks_service.scoring_uri]. *)
Definition consume (scoring_uri : string) (token : string * pyval)
    : outcome Request :=
  let '(access_token, refresh_after) := token in
  let sample := DataFrame_of_records [sample_record] in
  sample ← to_json sample;
  sample ← Json.loads sample;
  let sample := Json.dumps (VDict [("data", sample)]) in
  let headers := [("Content-Type", "application/json");
                  ("Authorization", "Bearer " ++ access_token)] in
  mret (requests_post scoring_uri sample headers).

End Client.

(** ** The provisioning cells of the enterprise-readiness notebook *)

Module Provision.

(** The workspace attributes the cells read. *)
Record Workspace : Type := mkWorkspace {
  resource_group : string;
  location : string
}.

(** [AmlCompute.provisioning_configuration(...)] with the cell's keywords *)
Record AmlComputeConfig : Type := mkAmlConfig {
  vm_size : string;
  min_nodes : Z;
  max_nodes : Z;
  aml_vnet_resourcegroup_name : string;
  aml_vnet_name : string;
  aml_subnet_name : string
}.

(** [AksCompute.provisioning_configuration(location=...)] and the
    attributes that the cell assigns afterwards; unassigned ones are
    [None]. *)
Record AksComputeConfig : Type := mkAksConfig {
  aks_location : string;
  aks_vnet_resourcegroup_name : option string;
  aks_vnet_name : option string;
  aks_subnet_name : option string;
  service_cidr : option string;
  dns_service_ip : option string;
  docker_bridge_cidr : option string;
  cluster_purpose : option string
}.

Inductive provisioning_config : Type :=
| AmlConfig (c : AmlComputeConfig)
| AksConfig (c : AksComputeConfig).

(** The cloud SDK, as the cells use it.  [world] is the control plane as
    the SDK reaches it; every call may change it and may raise. *)
Class CloudSDK : Type := {
  world : Type;
  compute : Type;
  (** [ComputeTarget(workspace=ws, name=name)] *)
  sdk_ComputeTarget : Workspace -> string -> world -> outcome compute * world;
  (** [ComputeTarget.create(ws, name, provisioning_configuration)] *)
  sdk_create : Workspace -> string -> provisioning_config -> world ->
               outcome compute * world;
  (** [target.wait_for_completion(show_output=True)] *)
  sdk_wait_for_completion : compute -> world -> outcome unit * world
}.

(** The SDK calls a cell makes, for the record. *)
Inductive sdk_call : Type :=
| CallComputeTarget (name : string)
| CallCreate (name : string) (cfg : provisioning_config)
| CallWaitForCompletion.

Section cells.
Context {sdk : CloudSDK}.

(** What a cell runs against: the control plane, the cell's output so
    far and the SDK calls made so far. *)
Record nb_state : Type := mkState {
  cloud : world;
  stdout : list string;
  calls : list sdk_call
}.

(** A statement: it runs on a state and raises or returns there. *)
Definition stmt (A : Type) : Type := nb_state -> outcome A * nb_state.

Definition ret {A} (a : A) : stmt A := fun st => (Return a, st).

Definition seq_stmt {A B} (c : stmt A) (k : A -> stmt B) : stmt B :=
  fun st =>
    match c st with
    | (Raise e, st') => (Raise e, st')
    | (Return a, st') => k a st'
    end.

(** [try: body  except <matched by catches>: handler]; the handler
    starts from the state the body left. *)
Definition try_stmt {A} (body : stmt A) (catches : exn -> bool)
    (handler : stmt A) : stmt A :=
  fun st =>
    match body st with
    | (Raise e, st') => if catches e then handler st' else (Raise e, st')
    | (Return a, st') => (Return a, st')
    end.

(** [print(a, b)]: the arguments separated by a space, then a newline. *)
Definition print (args : list string) : stmt unit :=
  fun st =>
    (Return tt,
     {| cloud := cloud st;
        stdout := stdout st ++ [Json.join " " args ++ String "010" EmptyString];
        calls := calls st |}).

(** An SDK call, run on the control plane and recorded. *)
Definition call {A} (what : sdk_call) (f : world -> outcome A * world)
    : stmt A :=
  fun st =>
    let '(o, w) := f (cloud st) in
    (o, {| cloud := w; stdout := stdout st; calls := calls st ++ [what] |}).

Definition ComputeTarget (ws : Workspace) (name : string) : stmt compute :=
  call (CallComputeTarget name) (sdk_ComputeTarget ws name).

Definition ComputeTarget_create (ws : Workspace) (name : string)
    (cfg : provisioning_config) : stmt compute :=
  call (CallCreate name cfg) (sdk_create ws name cfg).

Definition wait_for_completion (target : compute) : stmt unit :=
  call CallWaitForCompletion (sdk_wait_for_completion target).

(** [except ComputeTargetException] *)
Definition is_ComputeTargetException (e : exn) : bool :=
  bool_decide (exn_cls e = ComputeTargetException).

Definition cpu_cluster_name : string := "vnetcluster".
Definition aks_cluster_name : string := "aksvnetcluster1".

(** The configuration the training cell builds. *)
Definition compute_config (ws : Workspace) : provisioning_config :=
  let vnet_name := "AMLVNetDemo" in
  let subnet_name := "default" in
  let vnet_resourcegroup_name := resource_group ws in
  AmlConfig {| vm_size := "STANDARD_D2_V2";
               min_nodes := 0;
               max_nodes := 4;
               aml_vnet_resourcegroup_name := vnet_resourcegroup_name;
               aml_vnet_name := vnet_name;
               aml_subnet_name := subnet_name |}.

(** The [except] branch of the training cell. *)
Definition create_cpu_cluster (ws : Workspace) : stmt compute :=
  seq_stmt (print ["Creating new cluster with name"; cpu_cluster_name]) (fun _ =>
  seq_stmt (ComputeTarget_create ws cpu_cluster_name (compute_config ws)) (fun cpu_cluster =>
  seq_stmt (wait_for_completion cpu_cluster) (fun _ =>
  ret cpu_cluster))).

(** The training-cluster cell. *)
Definition provision_cpu_cluster (ws : Workspace) : stmt compute :=
  try_stmt
    (seq_stmt (ComputeTarget ws cpu_cluster_name) (fun cpu_cluster =>
     seq_stmt (print ["Found existing cluster with name"; cpu_cluster_name]) (fun _ =>
     ret cpu_cluster)))
    is_ComputeTargetException
    (create_cpu_cluster ws).

(** The configuration the inference cell builds, attribute by attribute. *)
Definition aks_config (ws : Workspace) : provisioning_config :=
  AksConfig {| aks_location := location ws;
               aks_vnet_resourcegroup_name := Some (resource_group ws);
               aks_vnet_name := Some "AMLVNetDemo";
               aks_subnet_name := Some "default";
               service_cidr := Some "10.0.0.0/16";
               dns_service_ip := Some "10.0.0.10";
               docker_bridge_cidr := Some "172.18.0.1/16";
               cluster_purpose := Some "DevTest" |}.

(** The [except] branch of the inference cell. *)
Definition create_aks_target (ws : Workspace) : stmt compute :=
  seq_stmt (print ["Creating new aks cluster"]) (fun _ =>
  ComputeTarget_create ws aks_cluster_name (aks_config ws)).

(** The inference-cluster cell. *)
Definition provision_aks_target (ws : Workspace) : stmt compute :=
  try_stmt
    (seq_stmt (ComputeTarget ws aks_cluster_name) (fun aks_target =>
     seq_stmt (print ["Found existing aks cluster"]) (fun _ =>
     ret aks_target)))
    is_ComputeTargetException
    (create_aks_target ws).

(** The two cluster types and what belongs to each. *)
Inductive cluster_type : Type := TrainingCluster | InferenceCluster.

Definition cluster_name (k : cluster_type) : string :=
  match k with
  | TrainingCluster => cpu_cluster_name
  | InferenceCluster => aks_cluster_name
  end.

Definition provision (k : cluster_type) (ws : Workspace) : stmt compute :=
  match k with
  | TrainingCluster => provision_cpu_cluster ws
  | InferenceCluster => provision_aks_target ws
  end.

Definition create_branch (k : cluster_type) (ws : Workspace) : stmt compute :=
  match k with
  | TrainingCluster => create_cpu_cluster ws
  | InferenceCluster => create_aks_target ws
  end.

Definition config_of (k : cluster_type) (ws : Workspace)
    : provisioning_config :=
  match k with
  | TrainingCluster => compute_config ws
  | InferenceCluster => aks_config ws
  end.

Definition found_message (k : cluster_type) : string :=
  match k with
  | TrainingCluster => "Found existing cluster with name vnetcluster"
  | InferenceCluster => "Found existing aks cluster"
  end ++ String "010" EmptyString.

Definition is_create (c : sdk_call) : bool :=
  match c with CallCreate _ _ => true | _ => false end.
End cells.

(** *** A control plane in memory

    The smallest SDK that behaves as the cells expect: a registry of
    compute targets by name, reachable or not. *)
Record mem_world : Type := mkMem {
  targets : gmap string provisioning_config;
  reachable : bool
}.

Definition mem_ComputeTarget (ws : Workspace) (name : string) (w : mem_world)
    : outcome (string * provisioning_config) * mem_world :=
  if reachable w then
    match targets w !! name with
    | Some cfg => (Return (name, cfg), w)
    | None =>
        (Raise (mkExn ComputeTargetException "ComputeTargetNotFound"), w)
    end
  else (Raise (mkExn (OtherException "ConnectionError") "unreachable"), w).

Definition mem_create (ws : Workspace) (name : string)
    (cfg : provisioning_config) (w : mem_world)
    : outcome (string * provisioning_config) * mem_world :=
  if reachable w then
    (Return (name, cfg),
     {| targets := <[name := cfg]> (targets w); reachable := true |})
  else (Raise (mkExn (OtherException "ConnectionError") "unreachable"), w).

Definition mem_wait (t : string * provisioning_config) (w : mem_world)
    : outcome unit * mem_world :=
  (Return tt, w).

Definition mem_sdk : CloudSDK :=
  {| world := mem_world;
     compute := string * provisioning_config;
     sdk_ComputeTarget := mem_ComputeTarget;
     sdk_create := mem_create;
     sdk_wait_for_completion := mem_wait |}.

End Provision.

(** * Notions used in the statements *)

(** ** score.py *)

(** The two dicts that [run] serialises. *)
Definition result_payload (values : list pyval) : pyval :=
  VDict [("result", VList values)].

Definition error_payload (e : exn) : pyval :=
  VDict [("error", VStr (str e))].

(** An exception raised inside the [try] block of [run]: by
    [model.predict], else by [tolist], else by [json.dumps]. *)
Definition raised_in_try (g : Score.globals) (data : Pandas.DataFrame)
    (e : exn) : Prop :=
  Score.model_predict g data = Raise e \/
  exists result,
    Score.model_predict g data = Return result /\
    (Score.tolist result = Raise e \/
     exists entries,
       Score.tolist result = Return entries /\
       Score.dumps_result entries = Raise e).

(** A classifier of the two classes 0 and 1: whenever [predict] returns,
    it is an array with one entry for each row, each 0 or 1. *)
Definition binary_classifier (m : Score.Model) : Prop :=
  forall data result,
    Score.predict m data = Return result ->
    exists labels,
      result = Score.Array (map (fun z => Score.Plain (VInt z)) labels) /\
      length labels = Pandas.nrows data /\
      Forall (fun z => z = 0 \/ z = 1) labels.

(** A model that answers 0 for every row it is given. *)
Definition always_zero : Score.Model :=
  {| Score.predict := fun data =>
       Return (Score.Array
                 (map (fun _ => Score.Plain (VInt 0)) (Pandas.df_index data))) |}.

(** A model whose predictions are complex numbers, which [json] does not
    write. *)
Definition always_complex : Score.Model :=
  {| Score.predict := fun data =>
       Return (Score.Array
                 (map (fun _ => Score.Opaque "complex") (Pandas.df_index data))) |}.

(** A model whose [predict] hands back a plain list. *)
Definition list_model : Score.Model :=
  {| Score.predict := fun _ => Return (Score.NotArray "list") |}.

(** A model whose [predict] rejects every input. *)
Definition always_failing : Score.Model :=
  {| Score.predict := fun _ =>
       Raise (mkExn ValueError
                "Number of features of the model must match the input") |}.

(** The columns of [input_sample]. *)
Definition input_columns : list string := Client.sample_record.*1.

(** [type(v).__name__] *)
Definition type_name (v : pyval) : string :=
  match v with
  | VNone => "NoneType"
  | VBool _ => "bool"
  | VInt _ => "int"
  | VStr _ => "str"
  | VList _ => "list"
  | VDict _ => "dict"
  end.

Definition as_record (v : pyval) : option (list (string * pyval)) :=
  match v with
  | VDict d => Some d
  | _ => None
  end.

(** A parameter type for the concrete runs: a list of one or more records
    that carry the columns of [input_sample] becomes the table of the
    records; every other request is refused.  (The parameter type of
    inference-schema takes a dict of columns too, and refuses, as this one
    does, what is neither a list nor a dict.) *)
Definition records_parameter : Score.ParameterType :=
  {| Score.deserialize_input := fun data =>
       match data with
       | VList items =>
           match mapM as_record items with
           | Some (r :: records) =>
               if bool_decide (Forall (fun r' => r'.*1 = input_columns)
                                      (r :: records))
               then Return (Pandas.DataFrame_of_records (r :: records))
               else Raise (mkExn ValueError
                             "Invalid input data frame, shape mismatch")
           | _ => Raise (mkExn ValueError
                           "Invalid input data frame, dimension mismatch")
           end
       | _ =>
           Raise (mkExn (OtherException "Exception")
                    ("Error, unable to convert input of type <class '"
                     ++ type_name data ++ "'> into Pandas Dataframe"))
       end |}.

(** The request of the employee of the consuming cell, as one record. *)
Definition sample_request : pyval := VList [VDict Client.sample_record].

(** The response contract in the specification's words: an object that
    holds either [result], a single integer 0 or 1, or [error], and not
    both.  The object is looked for in what [run] returns, as it is or
    decoded from the returned text. *)
Definition spec_response (returned : pyval) : Prop :=
  exists obj,
    (returned = obj \/
     exists s, returned = VStr s /\ Json.loads s = Return obj) /\
    ((getitem "result" obj = Some (VInt 0) \/
      getitem "result" obj = Some (VInt 1)) /\ has_key "error" obj = false
     \/ has_key "error" obj = true /\ has_key "result" obj = false).

(** ** The explainability notebook *)

(** The labels the data-preparation cell drops. *)
Definition dropped : list string :=
  ["EmployeeCount"; "EmployeeNumber"; "Over18"; "StandardHours"].

(** A small attrition table with the four columns to drop. *)
Definition attrition_sample : Pandas.DataFrame :=
  {| Pandas.df_index := [VInt 0; VInt 1];
     Pandas.df_data :=
       [("Age", Pandas.mkSeries Pandas.int64 [VInt 41; VInt 49]);
        ("Attrition", Pandas.mkSeries Pandas.int64 [VInt 0; VInt 1]);
        ("EmployeeCount", Pandas.mkSeries Pandas.int64 [VInt 1; VInt 1]);
        ("EmployeeNumber", Pandas.mkSeries Pandas.int64 [VInt 1; VInt 2]);
        ("Gender", Pandas.mkSeries Pandas.object_ [VStr "Female"; VStr "Male"]);
        ("Over18", Pandas.mkSeries Pandas.object_ [VStr "Y"; VStr "Y"]);
        ("StandardHours", Pandas.mkSeries Pandas.int64 [VInt 80; VInt 80])] |}.

(** A table in which two labels are carried by two columns each. *)
Definition repeated_labels : Pandas.DataFrame :=
  {| Pandas.df_index := [VInt 0];
     Pandas.df_data :=
       [("a", Pandas.mkSeries Pandas.object_ [VStr "x"]);
        ("a", Pandas.mkSeries Pandas.object_ [VStr "y"]);
        ("b", Pandas.mkSeries Pandas.int64 [VInt 1]);
        ("b", Pandas.mkSeries Pandas.int64 [VInt 2])] |}.

(** The split in the specification's words: the two lists share no column
    and together cover every column of the table exactly once. *)
Definition strict_partition (df : Pandas.DataFrame) : Prop :=
  (forall l, ~ (l ∈ Explain.categorical df /\ l ∈ Explain.numerical df)) /\
  (Explain.categorical df ++ Explain.numerical df)%list ≡ₚ Pandas.columns df.

(** A table whose numeric columns are not in alphabetical order. *)
Definition unsorted_table : Pandas.DataFrame :=
  {| Pandas.df_index := [VInt 0; VInt 1];
     Pandas.df_data :=
       [("YearsAtCompany", Pandas.mkSeries Pandas.int64 [VInt 6; VInt 2]);
        ("Gender", Pandas.mkSeries Pandas.object_ [VStr "Female"; VStr "Male"]);
        ("Age", Pandas.mkSeries Pandas.int64 [VInt 41; VInt 49])] |}.

(** The labels of the columns that are not [object], in column order. *)
Definition numeric_in_column_order (df : Pandas.DataFrame) : list string :=
  (filter (fun c => Pandas.s_dtype (snd c) <> Pandas.object_)
          (Pandas.df_data df)).*1.


(** A pipeline that predicts attrition from the age alone. *)
Definition age_rule : Explain.Pipeline :=
  {| Explain.predict_one := fun cells =>
       match Pandas.record_get "Age" cells with
       | Some (VInt age) => if 45 <=? age then VInt 1 else VInt 0
       | _ => VInt 0
       end |}.

(** ** The consuming cell *)

(** The table of the request cell. *)
Definition sample_table : Pandas.DataFrame :=
  Pandas.DataFrame_of_records [Client.sample_record].

(** The sample in the columns layout: each column label maps to an object
    from the row label [0] to the cell. *)
Definition sample_by_column : pyval :=
  VDict (map (fun kv => (fst kv, VDict [("0", snd kv)])) Client.sample_record).

(** The layouts of [to_json] that go row by row. *)
Definition row_oriented (o : Pandas.orient) : bool :=
  match o with
  | Pandas.orient_columns => false
  | Pandas.orient_index | Pandas.orient_records | Pandas.orient_values => true
  end.

(** The request body in the specification's words: an object with the
    single key [data] that holds the table laid out row by row. *)
Definition spec_request_body (text : string) : Prop :=
  exists o, row_oriented o = true /\
    Json.loads text
      = Return (VDict [("data", Pandas.json_layout o sample_table)]).

(** ** The provisioning cells *)

(** The state right after the lookup call of a cell. *)
Definition after_lookup {sdk : Provision.CloudSDK} (k : Provision.cluster_type)
    (st : Provision.nb_state) (w : Provision.world) : Provision.nb_state :=
  {| Provision.cloud := w;
     Provision.stdout := Provision.stdout st;
     Provision.calls :=
       (Provision.calls st
          ++ [Provision.CallComputeTarget (Provision.cluster_name k)])%list |}.

(** A workspace and notebook states over the control plane in memory. *)
Definition demo_ws : Provision.Workspace :=
  {| Provision.resource_group := "aml-workshop";
     Provision.location := "eastus2" |}.

Definition mem_state (w : Provision.mem_world)
    : @Provision.nb_state Provision.mem_sdk :=
  @Provision.mkState Provision.mem_sdk w [] [].

Definition empty_cloud : Provision.mem_world :=
  {| Provision.targets := ∅; Provision.reachable := true |}.

Definition unreachable_cloud : Provision.mem_world :=
  {| Provision.targets := ∅; Provision.reachable := false |}.

(** ** Further notions *)


(** The table after the drop of one label. *)
Definition without (l : string) (df : Pandas.DataFrame) : Pandas.DataFrame :=
  {| Pandas.df_index := Pandas.df_index df;
     Pandas.df_data := filter (fun c => fst c ∉ [l]) (Pandas.df_data df) |}.

(** ** Notions for decoding what the encoders write *)

Section decoding_notions.
Import Json.

(** What may follow a value inside a text: nothing, or the comma, bracket
    or brace that closes it. *)
Definition closes (rest : string) : bool :=
  match rest with
  | EmptyString => true
  | String c _ => (Ascii.eqb c ",") || (Ascii.eqb c "]") || (Ascii.eqb c "}")
  end.

(** The keys of every dict inside [v] are distinct, as in any dict that
    Python builds. *)
Fixpoint distinct_keys (v : pyval) : bool :=
  match v with
  | VList l => forallb distinct_keys l
  | VDict d =>
      bool_decide (NoDup d.*1) && forallb (fun kv => distinct_keys (snd kv)) d
  | _ => true
  end.




(** The fuel that [scan_value] uses up on the text of [v]: one unit for
    each level of nesting, and as many as a container has items. *)
Fixpoint fuel_needed (v : pyval) : nat :=
  match v with
  | VList l => S (fold_right (fun x m => Nat.max (fuel_needed x) m) (length l) l)
  | VDict d =>
      S (fold_right (fun kv m => Nat.max (fuel_needed (snd kv)) m) (length d) d)
  | _ => 1
  end.

(** The characters a value's text can start with. *)
Definition starts_value (c : ascii) : bool :=
  match digit_value c with
  | Some _ => true
  | None =>
      bool_decide (c ∈ ["-"; "034"; "["; "{"; "t"; "f"; "n"]%char)
  end.

(** The text [txt x] of a value is read back by [scan_value], whatever
    closes it. *)
Definition reads_back (txt : pyval -> string) (fuel : nat) (x : pyval) : Prop :=
  forall rest, closes rest = true ->
    scan_value fuel (txt x ++ rest) = Some (x, rest).

(** The white space an encoder puts after a separator: none or a space. *)
Definition gap (sp : string) : Prop := sp = EmptyString \/ sp = " ".

(** A string encoder whose text is read back by [scan_string]. *)
Definition key_reads_back (qt : string -> string) : Prop :=
  forall k rest, exists body,
    (qt k ++ rest) = String dquote body /\ scan_string body = Some (k, rest).

(** The text of one member of a dict. *)
Definition member_text (qt : string -> string) (sp : string)
    (txt : pyval -> string) (kv : string * pyval) : string :=
  qt (fst kv) ++ String ":" sp ++ txt (snd kv).

(** The common shape of [json.dumps] and of the ujson encoder: they differ
    in how a string is quoted and in the space after a separator. *)
Fixpoint encode (qt : string -> string) (sp : string) (v : pyval) : string :=
  match v with
  | VNone => "null"
  | VBool true => "true"
  | VBool false => "false"
  | VInt z => int_repr z
  | VStr s => qt s
  | VList l => "[" ++ join (String "," sp) (map (encode qt sp) l) ++ "]"
  | VDict d =>
      "{" ++ join (String "," sp)
               (map (fun kv => qt (fst kv) ++ String ":" sp ++ encode qt sp (snd kv)) d)
          ++ "}"
  end.

End decoding_notions.

(** Induction on values that goes through the items of lists and dicts. *)
Section pyval_induction.
Variable P : pyval -> Prop.
Hypothesis HNone : P VNone.
Hypothesis HBool : forall b, P (VBool b).
Hypothesis HInt : forall z, P (VInt z).
Hypothesis HStr : forall s, P (VStr s).
Hypothesis HList : forall l, Forall P l -> P (VList l).
Hypothesis HDict : forall d, Forall (fun kv => P (snd kv)) d -> P (VDict d).

Fixpoint pyval_nested_ind (v : pyval) : P v :=
  match v with
  | VNone => HNone
  | VBool b => HBool b
  | VInt z => HInt z
  | VStr s => HStr s
  | VList l =>
      HList l
        ((fix items (l : list pyval) : Forall P l :=
            match l with
            | [] => @List.Forall_nil _ P
            | x :: l' => @List.Forall_cons _ P x l' (pyval_nested_ind x) (items l')
            end) l)
  | VDict d =>
      HDict d
        ((fix members (d : list (string * pyval))
            : Forall (fun kv => P (snd kv)) d :=
            match d with
            | [] => @List.Forall_nil _ _
            | (k, x) :: d' =>
                @List.Forall_cons _ (fun kv => P (snd kv)) (k, x) d'
                  (pyval_nested_ind x) (members d')
            end) d)
  end.
End pyval_induction.

(** ** The request body for any sample *)


(** The line that a provisioning cell prints before it creates. *)
Definition creating_message (k : Provision.cluster_type) : string :=
  match k with
  | Provision.TrainingCluster => "Creating new cluster with name vnetcluster"
  | Provision.InferenceCluster => "Creating new aks cluster"
  end ++ String "010" EmptyString.

(** * Properties *)

(** ** score.py *)

Section score_facts.
Import Score.

(** The decorated function is the conversion followed by the body. *)
Lemma run_converted param_type g request data :
  deserialize_input param_type request = Return data ->
  run param_type g request = run_body g data.
Proof. intros Hc. unfold run, input_schema, output_schema. cbn. by rewrite Hc. Qed.

Lemma run_refused param_type g request e :
  deserialize_input param_type request = Raise e ->
  run param_type g request = Raise e.
Proof. intros Hc. unfold run, input_schema, output_schema. cbn. by rewrite Hc. Qed.

Lemma run_body_on_success g data entries values :
  model_predict g data = Return (Array entries) ->
  serializable entries = Return values ->
  run_body g data = Return (VStr (Json.dumps (result_payload values))).
Proof.
  intros Hp Hs. unfold run_body, dumps_result. cbn. rewrite Hp. cbn.
  rewrite Hs. reflexivity.
Qed.

Lemma run_body_on_failure g data e :
  raised_in_try g data e ->
  run_body g data = Return (VStr (Json.dumps (error_payload e))).
Proof.
  unfold run_body.
  intros [Hp|(result & Hp & [Ht|(entries & Ht & Hd)])]; cbn; rewrite Hp; cbn.
  - reflexivity.
  - rewrite Ht. reflexivity.
  - rewrite Ht. cbn. rewrite Hd. reflexivity.
Qed.

Lemma dumps_result_raises entries e :
  dumps_result entries = Raise e <-> serializable entries = Raise e.
Proof.
  unfold dumps_result. cbn. destruct (serializable entries); cbn.
  - split; by intros [= ->].
  - split; discriminate.
Qed.

(** The body ends in one of its two [return] statements. *)
Lemma run_body_cases g data :
  (exists entries values,
     model_predict g data = Return (Array entries) /\
     serializable entries = Return values /\
     run_body g data = Return (VStr (Json.dumps (result_payload values)))) \/
  (exists e,
     raised_in_try g data e /\
     run_body g data = Return (VStr (Json.dumps (error_payload e)))).
Proof.
  destruct (model_predict g data) as [e|[entries|type_name]] eqn:Hp.
  - right. exists e. assert (Hr : raised_in_try g data e) by (by left).
    split; [exact Hr|by apply run_body_on_failure].
  - destruct (serializable entries) as [e|values] eqn:Hs.
    + right. exists e.
      assert (Hr : raised_in_try g data e).
      { right. exists (Array entries). split; [done|]. right.
        exists entries. split; [done|]. by apply dumps_result_raises. }
      split; [exact Hr|by apply run_body_on_failure].
    + left. exists entries, values. split; [done|]. split; [done|].
      by apply (run_body_on_success _ _ entries).
  - right. eexists.
    assert (Hr : raised_in_try g data
      (mkExn AttributeError
         ("'" ++ type_name ++ "' object has no attribute 'tolist'"))).
    { right. exists (NotArray type_name). split; [done|]. by left. }
    split; [exact Hr|by apply run_body_on_failure].
Qed.

Lemma serializable_plain (values : list pyval) :
  serializable (map Plain values) = Return values.
Proof.
  induction values as [|v values IH]; [done|]. simpl. by rewrite IH.
Qed.

Lemma serializable_returns entries values :
  serializable entries = Return values -> entries = map Plain values.
Proof.
  revert values. induction entries as [|[v|t] entries IH]; intros values Hs.
  - by injection Hs as <-.
  - simpl in Hs. destruct (serializable entries) as [?|vs] eqn:Hvs;
      [discriminate|].
    injection Hs as <-. simpl. f_equal. by apply IH.
  - discriminate.
Qed.

(** What is raised in the [try] block is fixed by the model and the table. *)
Lemma raised_in_try_inj g data e e' :
  raised_in_try g data e -> raised_in_try g data e' -> e = e'.
Proof.
  intros [Hp|(r & Hp & [Ht|(l & Ht & Hd)])]
         [Hp'|(r' & Hp' & [Ht'|(l' & Ht' & Hd')])]; try congruence.
  all: rewrite Hp in Hp'; injection Hp' as <-; congruence.
Qed.

Lemma always_zero_binary : binary_classifier always_zero.
Proof.
  intros data result [= <-].
  exists (map (fun _ => 0) (Pandas.df_index data)).
  split; [by rewrite map_map|]. split; [by rewrite length_map|].
  apply Forall_forall. intros z Hz.
  apply list_elem_of_fmap in Hz as (? & -> & _). by left.
Qed.


Lemma records_parameter_sample :
  deserialize_input records_parameter sample_request = Return sample_table.
Proof. reflexivity. Qed.

(** Decoding what [run] returns takes two rounds: the JSON encoding of the
    returned value is a string literal, and the string is the object. *)
Example run_success_decodes_twice :
  exists s,
    run records_parameter (mkGlobals (Some always_zero)) sample_request
      = Return (VStr s) /\
    Json.loads (Json.dumps (VStr s)) = Return (VStr s) /\
    Json.loads s = Return (VDict [("result", VList [VInt 0])]).
Proof. eexists. split; [reflexivity|]. split; vm_compute; reflexivity. Qed.

Example run_failure_decodes_twice :
  exists s,
    run records_parameter (mkGlobals None) sample_request = Return (VStr s) /\
    Json.loads (Json.dumps (VStr s)) = Return (VStr s) /\
    Json.loads s
      = Return (VDict [("error", VStr "name 'model' is not defined")]).
Proof. eexists. split; [reflexivity|]. split; vm_compute; reflexivity. Qed.

(** The three places of the [try] block that can raise, each ending in the
    error object. *)
Example run_answers_every_failure :
  run records_parameter (mkGlobals (Some always_failing)) sample_request
    = Return (VStr (Json.dumps (VDict [("error",
        VStr "Number of features of the model must match the input")]))) /\
  run records_parameter (mkGlobals (Some list_model)) sample_request
    = Return (VStr (Json.dumps (VDict [("error",
        VStr "'list' object has no attribute 'tolist'")]))) /\
  run records_parameter (mkGlobals (Some always_complex)) sample_request
    = Return (VStr (Json.dumps (VDict [("error",
        VStr "Object of type 'complex' is not JSON serializable")]))).
Proof. repeat split. Qed.

(** A request that is not a list of records does not reach the body. *)
Example run_refuses_a_number :
  run records_parameter (mkGlobals (Some always_zero)) (VInt 3)
    = Raise (mkExn (OtherException "Exception")
               "Error, unable to convert input of type <class 'int'> into Pandas Dataframe").
Proof. reflexivity. Qed.

End score_facts.

(** C1, as stated, fails: for a model that predicts 0 and the request of
    one employee, [run] returns the text of an object whose [result] is
    the list [[0]], not the integer 0 or 1. *)
Lemma run_result_is_not_a_single_integer :
  exists returned,
    Score.run records_parameter (Score.mkGlobals (Some always_zero))
      sample_request = Return returned /\
    ~ spec_response returned.
Proof.
  eexists. split; [reflexivity|].
  intros (obj & [<- | (s & Hs & Hl)] & Hk).
  - cbn in Hk. destruct Hk as [[[?|?] _]|[? _]]; discriminate.
  - injection Hs as <-. vm_compute in Hl. injection Hl as <-.
    vm_compute in Hk. destruct Hk as [[[?|?] _]|[? _]]; discriminate.
Qed.

(** C1 (amended): for every input row sent to the scoring endpoint, that
    is a request that the input schema converts to a table, and a model
    that predicts 0 or 1, [run] returns the JSON text of an object that
    holds either the key [result], a list with one integer 0 or 1 for each
    row ([[0]] or [[1]] for a single row, not the bare integer), or the
    key [error], and never both keys. *)
Theorem run_result_xor_error
    (param_type : Score.ParameterType) (g : Score.globals)
    (request : pyval) (data : Pandas.DataFrame) :
  Score.deserialize_input param_type request = Return data ->
  (forall m, Score.model g = Some m -> binary_classifier m) ->
  exists payload,
    Score.run param_type g request = Return (VStr (Json.dumps payload)) /\
    ((exists labels,
        Score.model_predict g data
          = Return (Score.Array (map (fun z => Score.Plain (VInt z)) labels)) /\
        length labels = Pandas.nrows data /\
        Forall (fun z => z = 0 \/ z = 1) labels /\
        payload = VDict [("result", VList (map VInt labels))]) \/
     (exists e,
        Score.model_predict g data = Raise e /\
        payload = VDict [("error", VStr (str e))])) /\
    (Pandas.nrows data = 1%nat ->
       payload = VDict [("result", VList [VInt 0])] \/
       payload = VDict [("result", VList [VInt 1])] \/
       exists message, payload = VDict [("error", VStr message)]) /\
    (keys payload = ["result"] \/ keys payload = ["error"]) /\
    (has_key "result" payload && has_key "error" payload = false).
Proof.
  intros Hc Hm. rewrite (run_converted _ _ _ _ Hc).
  destruct (Score.model_predict g data) as [e|result] eqn:Hp.
  - exists (error_payload e).
    split; [apply run_body_on_failure; by left|].
    split; [right; by exists e|].
    split; [intros _; right; right; by eexists|].
    split; [by right|reflexivity].
  - assert (Hb : exists labels,
      result = Score.Array (map (fun z => Score.Plain (VInt z)) labels) /\
      length labels = Pandas.nrows data /\
      Forall (fun z => z = 0 \/ z = 1) labels).
    { unfold Score.model_predict in Hp.
      destruct (Score.model g) as [m|] eqn:Hg; [|discriminate].
      by apply (Hm m eq_refl). }
    destruct Hb as (labels & -> & Hlen & Hall).
    exists (result_payload (map VInt labels)).
    split.
    { apply (run_body_on_success _ _ _ _ Hp).
      rewrite <- (map_map VInt Score.Plain). apply serializable_plain. }
    split; [left; by exists labels|].
    split; [|split; [by left|reflexivity]].
    intros Hone. rewrite Hone in Hlen.
    destruct labels as [|z [|? ?]]; try discriminate Hlen.
    apply Forall_cons in Hall as [[->| ->] _]; [by left|right; by left].
Qed.

Lemma run_result_xor_error_witness :
  Score.run records_parameter (Score.mkGlobals (Some always_zero))
    sample_request
  = Return (VStr (Json.dumps (VDict [("result", VList [VInt 0])]))).
Proof.
  destruct (run_result_xor_error records_parameter
              (Score.mkGlobals (Some always_zero)) sample_request sample_table
              eq_refl)
    as (payload & Hrun & _ & _ & _ & _).
  - intros m [= <-]. apply always_zero_binary.
  - reflexivity.
Defined.

(** C2, as stated, fails: the scoring call is not total.  A request that
    the parameter type of [input_schema] refuses makes [run] raise, since
    the conversion runs before the [try]. *)
Lemma run_raises_on_refused_request :
  raises (Score.run records_parameter (Score.mkGlobals (Some always_zero))
            (VInt 3))
  /\ ~ (forall param_type g request,
          ~ raises (Score.run param_type g request)).
Proof.
  split; [exact I|].
  intros Hnever.
  apply (Hnever records_parameter (Score.mkGlobals (Some always_zero)) (VInt 3)).
  exact I.
Qed.

(** C2 (amended): on a request that the input schema converts, whenever
    [model.predict] raises, [run] returns the text of [{"error": str(e)}];
    so it does for an exception of [tolist] or [json.dumps]; the body of
    [run] never raises; the response depends on the exception through
    [str(e)] alone, whatever its class; and the scoring call raises exactly
    when the conversion of the request does, with that exception. *)
Theorem run_catches_every_exception
    (param_type : Score.ParameterType) (g : Score.globals)
    (request : pyval) (data : Pandas.DataFrame) (e : exn) :
  Score.deserialize_input param_type request = Return data ->
  Score.model_predict g data = Raise e ->
  Score.run param_type g request
    = Return (VStr (Json.dumps (VDict [("error", VStr (str e))])))
  /\ (forall g' data' e',
        raised_in_try g' data' e' ->
        Score.run_body g' data'
          = Return (VStr (Json.dumps (VDict [("error", VStr (str e'))]))))
  /\ (forall g' data', ~ raises (Score.run_body g' data'))
  /\ (forall g' data' e',
        raised_in_try g' data' e' -> str e' = str e ->
        Score.run_body g' data' = Score.run param_type g request)
  /\ (forall param_type' g' request' e',
        Score.run param_type' g' request' = Raise e' <->
        Score.deserialize_input param_type' request' = Raise e').
Proof.
  intros Hc Hp.
  assert (Hrun : Score.run param_type g request
                 = Return (VStr (Json.dumps (error_payload e)))).
  { rewrite (run_converted _ _ _ _ Hc). apply run_body_on_failure. by left. }
  split; [exact Hrun|]. split; [|split; [|split]].
  - intros g' data' e' Hr. by apply run_body_on_failure.
  - intros g' data'.
    destruct (run_body_cases g' data')
      as [(? & ? & _ & _ & ->)|(? & _ & ->)]; simpl; tauto.
  - intros g' data' e' Hr Hstr.
    rewrite Hrun, (run_body_on_failure _ _ _ Hr).
    unfold error_payload. by rewrite Hstr.
  - intros param_type' g' request' e'.
    destruct (Score.deserialize_input param_type' request') as [e0|data0] eqn:Hc'.
    + rewrite (run_refused _ _ _ _ Hc'). split; by intros [= ->].
    + rewrite (run_converted _ _ _ _ Hc').
      destruct (run_body_cases g' data0)
        as [(? & ? & _ & _ & ->)|(? & _ & ->)]; split; discriminate.
Qed.

Lemma run_catches_every_exception_witness :
  Score.run records_parameter (Score.mkGlobals (Some always_failing))
    sample_request
  = Return (VStr (Json.dumps (VDict [("error",
      VStr "Number of features of the model must match the input")]))).
Proof.
  apply (run_catches_every_exception records_parameter
           (Score.mkGlobals (Some always_failing)) sample_request sample_table
           (mkExn ValueError "Number of features of the model must match the input")).
  - reflexivity.
  - reflexivity.
Defined.



(** ** The explainability notebook: data preparation *)

Section explain_facts.
Import Pandas Explain.

Lemma bind_Return {A B} (a : A) (k : A -> outcome B) :
  (Return a ≫= k) = k a.
Proof. reflexivity. Qed.


Lemma filter_none {A} (P : A -> Prop) `{!forall x, Decision (P x)} (l : list A) :
  Forall (fun x => ~ P x) l -> filter P l = [].
Proof.
  induction 1 as [|x l Hx Hl IH]; [done|].
  by rewrite filter_cons_False.
Qed.

(** Dropping one label that is present keeps the index and filters the
    columns. *)
Lemma drop_present l df :
  l ∈ columns df ->
  drop [l] df =
    Return {| df_index := df_index df;
              df_data := filter (fun c => fst c ∉ [l]) (df_data df) |}.
Proof.
  intros Hl. unfold drop.
  rewrite filter_cons_False by (intros Hn; by apply Hn).
  by rewrite filter_nil.
Qed.

Lemma drop_missing l df :
  l ∉ columns df -> raises (drop [l] df).
Proof.
  intros Hl. unfold drop.
  rewrite filter_cons_True by done. by rewrite filter_nil.
Qed.

(** A label other than the dropped one survives a drop. *)
Lemma columns_after_drop l l' df :
  l' <> l -> l' ∈ columns df ->
  l' ∈ columns {| df_index := df_index df;
                  df_data := filter (fun c => fst c ∉ [l]) (df_data df) |}.
Proof.
  unfold columns. simpl. intros Hne Hin.
  apply list_elem_of_fmap in Hin as ([k s] & -> & Hin).
  apply list_elem_of_fmap. exists (k, s). split; [done|].
  apply list_elem_of_filter. split; [|done].
  simpl in *. rewrite list_elem_of_singleton. done.
Qed.
End explain_facts.

(** C5: on a table that has the four columns, the four drops succeed; the
    result keeps the row index, and its columns are the table's columns
    without those labelled [EmployeeCount], [EmployeeNumber], [Over18] or
    [StandardHours], in the same order and with the same values. *)
Theorem drop_uninformative_frame (df : Pandas.DataFrame) :
  Forall (fun l => l ∈ Pandas.columns df) dropped ->
  exists df',
    Explain.drop_uninformative df = Return df' /\
    Pandas.df_index df' = Pandas.df_index df /\
    Pandas.df_data df' =
      filter (fun c => fst c ∉ dropped) (Pandas.df_data df) /\
    (forall l, l ∈ Pandas.columns df' <-> l ∈ Pandas.columns df /\ l ∉ dropped) /\
    (forall l s, (l, s) ∈ Pandas.df_data df /\ l ∉ dropped
                 <-> (l, s) ∈ Pandas.df_data df').
Proof.
  intros Hall. rewrite Forall_forall in Hall.
  assert (H1 : "EmployeeCount" ∈ Pandas.columns df)
    by (apply Hall; repeat constructor).
  assert (H2 : "EmployeeNumber" ∈ Pandas.columns df)
    by (apply Hall; repeat constructor).
  assert (H3 : "Over18" ∈ Pandas.columns df)
    by (apply Hall; repeat constructor).
  assert (H4 : "StandardHours" ∈ Pandas.columns df)
    by (apply Hall; repeat constructor).
  assert (Hdata :
    Explain.drop_uninformative df =
      Return {| Pandas.df_index := Pandas.df_index df;
                Pandas.df_data :=
                  filter (fun c => fst c ∉ dropped) (Pandas.df_data df) |}).
  { unfold Explain.drop_uninformative.
    rewrite (drop_present _ _ H1), bind_Return.
    rewrite drop_present, bind_Return
      by (apply columns_after_drop; [discriminate|done]).
    rewrite drop_present, bind_Return
      by (do 2 (apply columns_after_drop; [discriminate|]); done).
    rewrite drop_present
      by (do 3 (apply columns_after_drop; [discriminate|]); done).
    simpl. do 2 f_equal. rewrite !list_filter_filter.
    apply list_filter_iff. intros [k s]. unfold dropped. simpl.
    rewrite !elem_of_cons, !elem_of_nil. tauto. }
  eexists. split; [exact Hdata|]. simpl.
  split; [done|]. split; [done|]. split.
  - intros l. unfold Pandas.columns. simpl.
    rewrite !list_elem_of_fmap. split.
    + intros ([k s] & -> & Hin). apply list_elem_of_filter in Hin as [Hk Hin].
      split; [|done]. by exists (k, s).
    + intros [([k s] & -> & Hin) Hk]. exists (k, s). split; [done|].
      by apply list_elem_of_filter.
  - intros l s. rewrite list_elem_of_filter. simpl. tauto.
Qed.

(** ** The explainability notebook: the categorical and numerical split *)

Section split_facts.
Import Pandas Explain.

(** The loop of appends collects the labels of the [object] columns. *)
Lemma categorical_filter df :
  categorical df =
    (filter (fun c => s_dtype (snd c) = object_) (df_data df)).*1.
Proof.
  unfold categorical, iteritems.
  assert (Hgen : forall l acc,
    fold_left
      (fun categorical (cv : string * Series) =>
         if decide (s_dtype (snd cv) = object_)
         then (categorical ++ [fst cv])%list else categorical) l acc
    = (acc ++ (filter (fun c => s_dtype (snd c) = object_) l).*1)%list).
  { induction l as [|c l IH]; intros acc; simpl.
    - by rewrite app_nil_r.
    - rewrite IH. destruct (decide (s_dtype (snd c) = object_)) as [Hc|Hc].
      + rewrite filter_cons_True by done. simpl. by rewrite <- app_assoc.
      + by rewrite filter_cons_False by done. }
  by rewrite Hgen.
Qed.

Lemma categorical_columns df l : l ∈ categorical df -> l ∈ columns df.
Proof.
  rewrite categorical_filter. unfold columns. rewrite !list_elem_of_fmap.
  intros (c & -> & Hc). apply list_elem_of_filter in Hc as [_ Hc]. eauto.
Qed.

Lemma elem_of_unique l x : x ∈ unique l <-> x ∈ l.
Proof.
  induction l as [|y l IH]; simpl; [done|].
  rewrite !elem_of_cons, list_elem_of_filter, IH.
  destruct (decide (x = y)); naive_solver.
Qed.

Lemma NoDup_unique l : NoDup (unique l).
Proof.
  induction l as [|y l IH]; simpl; [constructor|].
  apply NoDup_cons. split.
  - rewrite list_elem_of_filter. naive_solver.
  - by apply NoDup_filter.
Qed.

Lemma safe_sort_Permutation l : safe_sort l ≡ₚ l.
Proof. apply merge_sort_Permutation. Qed.

Lemma elem_of_Index_difference idx other x :
  x ∈ Index_difference idx other <-> x ∈ idx /\ x ∉ other.
Proof.
  unfold Index_difference. rewrite safe_sort_Permutation.
  rewrite list_elem_of_filter, elem_of_unique. tauto.
Qed.

Lemma NoDup_Index_difference idx other : NoDup (Index_difference idx other).
Proof.
  unfold Index_difference. rewrite safe_sort_Permutation.
  apply NoDup_filter, NoDup_unique.
Qed.

Lemma elem_of_numerical df l :
  l ∈ numerical df <-> l ∈ columns df /\ l ∉ categorical df.
Proof. apply elem_of_Index_difference. Qed.

Lemma NoDup_categorical df : NoDup (columns df) -> NoDup (categorical df).
Proof.
  rewrite categorical_filter. unfold columns.
  induction (df_data df) as [|[k s] l IH]; simpl; [constructor|].
  rewrite NoDup_cons. intros [Hk Hnd].
  destruct (decide (s_dtype s = object_)) as [Hs|Hs].
  - rewrite filter_cons_True by done. simpl. apply NoDup_cons.
    split; [|by apply IH]. intros Hin. apply Hk.
    apply list_elem_of_fmap in Hin as (c & -> & Hc).
    apply list_elem_of_filter in Hc as [_ Hc].
    apply list_elem_of_fmap. eauto.
  - rewrite filter_cons_False by done. by apply IH.
Qed.

(** With distinct column labels the two lists together are the columns,
    each exactly once. *)
Lemma categorical_numerical_Permutation df :
  NoDup (columns df) ->
  (categorical df ++ numerical df)%list ≡ₚ columns df.
Proof.
  intros Hnd. apply NoDup_Permutation; [|done|].
  - apply NoDup_app. split; [by apply NoDup_categorical|].
    split; [|apply NoDup_Index_difference].
    intros x Hx Hn. apply elem_of_numerical in Hn as [_ Hn]. done.
  - intros x. rewrite elem_of_app, elem_of_numerical. split.
    + intros [Hx|[Hx _]]; [by apply categorical_columns|done].
    + intros Hx. destruct (decide (x ∈ categorical df)); [by left|by right].
Qed.
End split_facts.

(** C6, as stated, fails for a table with repeated column labels: of the
    columns [a], [a] (both [object]), [b], [b] (both numeric) the two
    lists hold [a], [a] and [b]; the second column [b] is not covered, so
    the lists do not cover every column exactly once. *)
Lemma split_of_repeated_labels_is_not_strict :
  Explain.categorical repeated_labels = ["a"; "a"] /\
  Explain.numerical repeated_labels = ["b"] /\
  Pandas.columns repeated_labels = ["a"; "a"; "b"; "b"] /\
  ~ strict_partition repeated_labels.
Proof.
  assert (Hc : Explain.categorical repeated_labels = ["a"; "a"]) by reflexivity.
  assert (Hn : Explain.numerical repeated_labels = ["b"]) by (by vm_compute).
  split; [exact Hc|]. split; [exact Hn|]. split; [reflexivity|].
  intros [_ Hp]. apply Permutation_length in Hp.
  rewrite Hc, Hn in Hp. discriminate Hp.
Qed.

(** C6 (amended): for every feature table whose column labels are
    distinct, the two lists form a strict disjoint partition of the
    columns: they share no column and together hold every column exactly
    once.  Whatever the labels, no label is in both lists, every column
    label is in exactly one of them, neither holds a label that is not a
    column, [categorical] has one entry for each [object] column and
    [numerical] lists no label twice. *)
Theorem categorical_numerical_partition (df : Pandas.DataFrame) :
  (NoDup (Pandas.columns df) ->
     strict_partition df /\
     NoDup (Explain.categorical df ++ Explain.numerical df)%list /\
     (forall l, l ∈ Pandas.columns df ->
        length (filter (fun l' => l' = l)
                  (Explain.categorical df ++ Explain.numerical df)%list) = 1%nat)) /\
  (forall l, ~ (l ∈ Explain.categorical df /\ l ∈ Explain.numerical df)) /\
  (forall l, l ∈ Pandas.columns df ->
     (l ∈ Explain.categorical df /\ (l ∉ Explain.numerical df)) \/
     ((l ∉ Explain.categorical df) /\ l ∈ Explain.numerical df)) /\
  (forall l, l ∈ Explain.categorical df \/ l ∈ Explain.numerical df ->
     l ∈ Pandas.columns df) /\
  Explain.categorical df =
    (filter (fun c => Pandas.s_dtype (snd c) = Pandas.object_)
            (Pandas.df_data df)).*1 /\
  NoDup (Explain.numerical df).
Proof.
  assert (Hdisj : forall l,
            ~ (l ∈ Explain.categorical df /\ l ∈ Explain.numerical df)).
  { intros l [Hc Hn]. apply elem_of_numerical in Hn as [_ Hn]. done. }
  split; [|split; [exact Hdisj|split; [|split; [|split]]]].
  - intros Hnd. pose proof (categorical_numerical_Permutation df Hnd) as Hp.
    assert (Hnd' : NoDup (Explain.categorical df ++ Explain.numerical df)%list)
      by (by rewrite Hp).
    split; [by split|]. split; [exact Hnd'|].
    intros l Hl. rewrite <- Hp in Hl. revert Hnd' Hl.
    generalize (Explain.categorical df ++ Explain.numerical df)%list.
    intros ls. induction 1 as [|x ls Hx Hls IH]; intros Hl.
    + by apply elem_of_nil in Hl.
    + destruct (decide (x = l)) as [->|Hne].
      * rewrite filter_cons_True by done. simpl. f_equal.
        rewrite filter_none; [done|].
        apply Forall_forall. by intros y Hy ->.
      * rewrite filter_cons_False by done. apply IH.
        apply elem_of_cons in Hl as [->|Hl]; done.
  - intros l Hl. destruct (decide (l ∈ Explain.categorical df)) as [Hc|Hc].
    + left. split; [done|]. intros Hn.
      apply elem_of_numerical in Hn as [_ Hn]. done.
    + right. split; [done|]. by apply elem_of_numerical.
  - intros l [Hc|Hn]; [by apply categorical_columns|].
    by apply elem_of_numerical in Hn as [Hn _].
  - apply categorical_filter.
  - apply NoDup_Index_difference.
Qed.

Lemma categorical_numerical_partition_witness :
  NoDup (Pandas.columns attrition_sample)
  /\ strict_partition attrition_sample.
Proof.
  assert (Hnd : NoDup (Pandas.columns attrition_sample)) by compute_done.
  split; [exact Hnd|].
  apply (categorical_numerical_partition attrition_sample). exact Hnd.
Defined.

(** C9: for every feature table [numerical] is in ascending string order,
    and holds the distinct labels outside [categorical]; this is not the
    column order of the table in general: for the columns
    [YearsAtCompany], [Gender], [Age] it is [Age], [YearsAtCompany]. *)
Theorem numerical_is_sorted :
  (forall df,
     StronglySorted String.le (Explain.numerical df) /\
     (Explain.numerical df ≡ₚ
        filter (fun l => l ∉ Explain.categorical df)
               (Pandas.unique (Pandas.columns df)))) /\
  Explain.numerical unsorted_table = ["Age"; "YearsAtCompany"] /\
  numeric_in_column_order unsorted_table = ["YearsAtCompany"; "Age"] /\
  Explain.numerical unsorted_table <> numeric_in_column_order unsorted_table.
Proof.
  split.
  - intros df. unfold Explain.numerical, Pandas.Index_difference. split.
    + apply StronglySorted_merge_sort; apply _.
    + apply safe_sort_Permutation.
  - split; [by vm_compute|]. split; [by vm_compute|]. by vm_compute.
Qed.

(** ** The explainability notebook: local explanations *)

Section local_facts.
Import Pandas Explain.

Lemma row_at_Some df i lbl :
  df_index df !! i = Some lbl -> row_at df i = Some (lbl, cells_at df i).
Proof. intros Hl. unfold row_at. rewrite Hl. reflexivity. Qed.

Lemma omap_seq_total {A} (f : nat -> option A) (g : nat -> A) j n :
  (forall i, (j <= i < j + n)%nat -> f i = Some (g i)) ->
  omap f (seq j n) = map g (seq j n).
Proof.
  revert j. induction n as [|n IH]; intros j Hf; simpl; [done|].
  rewrite Hf by lia. simpl. f_equal. apply IH. intros i Hi. apply Hf. lia.
Qed.

(** The rows of a table, position by position. *)
Lemma rows_lookup df i : rows df !! i = row_at df i.
Proof.
  unfold rows, nrows.
  rewrite (omap_seq_total _
             (fun i => (default VNone (df_index df !! i), cells_at df i))).
  - rewrite list_lookup_fmap.
    destruct (decide (i < length (df_index df))%nat) as [Hi|Hi].
    + rewrite lookup_seq_lt by done. simpl.
      destruct (lookup_lt_is_Some_2 (df_index df) i Hi) as [lbl Hl].
      rewrite (row_at_Some _ _ _ Hl), Hl. reflexivity.
    + rewrite lookup_seq_ge by lia. simpl. unfold row_at.
      rewrite lookup_ge_None_2 by lia. reflexivity.
  - intros k [_ Hk]. simpl in Hk.
    destruct (lookup_lt_is_Some_2 (df_index df) k Hk) as [lbl Hl].
    rewrite (row_at_Some _ _ _ Hl), Hl. reflexivity.
Qed.

Lemma rows_length df : length (rows df) = nrows df.
Proof.
  unfold rows, nrows.
  rewrite (omap_seq_total _
             (fun i => (default VNone (df_index df !! i), cells_at df i))).
  - by rewrite length_map, length_seq.
  - intros k [_ Hk]. simpl in Hk.
    destruct (lookup_lt_is_Some_2 (df_index df) k Hk) as [lbl Hl].
    rewrite (row_at_Some _ _ _ Hl), Hl. reflexivity.
Qed.

(** A positional slice keeps the rows below its bound as they are. *)
Lemma row_at_head_rows n df i :
  (i < n)%nat -> row_at (head_rows n df) i = row_at df i.
Proof.
  intros Hi. unfold row_at, head_rows. simpl.
  rewrite lookup_take_lt by done.
  destruct (df_index df !! i) as [lbl|]; [|reflexivity]. simpl.
  do 2 f_equal. unfold cells_at. simpl. rewrite map_map. apply map_ext. intros [k s]. simpl.
  by rewrite lookup_take_lt.
Qed.

Lemma nrows_head_rows n df : nrows (head_rows n df) = (n `min` nrows df)%nat.
Proof. unfold nrows, head_rows. simpl. apply length_take. Qed.

(** The rows of [df[:n]] are the first [n] rows of [df]. *)
Lemma rows_head_rows n df : rows (head_rows n df) = take n (rows df).
Proof.
  apply list_eq. intros i. rewrite rows_lookup.
  destruct (decide (i < n)%nat) as [Hi|Hi].
  - by rewrite row_at_head_rows, lookup_take_lt, rows_lookup.
  - rewrite lookup_take_ge by lia. unfold row_at, head_rows. simpl.
    rewrite lookup_take_ge by lia. reflexivity.
Qed.
End local_facts.

(** C10: with [instance_num = 1] and a test set of at least two rows, the
    table handed to [explain_local] holds exactly the row at position 0,
    while [prediction_value] is the prediction for the row at position 1:
    the explained row and the predicted row sit at different positions. *)
Theorem local_explanation_row_mismatch {E : Type}
    (explain_local : Pandas.DataFrame -> E) (clf : Explain.Pipeline)
    (x_test : Pandas.DataFrame) :
  (2 <= Pandas.nrows x_test)%nat ->
  exists r0 r1,
    Pandas.row_at x_test 0 = Some r0 /\
    Pandas.row_at x_test 1 = Some r1 /\
    Explain.local_explanation explain_local x_test
      = explain_local (Pandas.head_rows 1 x_test) /\
    Pandas.rows (Pandas.head_rows 1 x_test) = [r0] /\
    Pandas.rows (Pandas.head_rows 1 x_test) !! Explain.instance_num = None /\
    Explain.prediction_value clf x_test
      = Return (Explain.predict_one clf (snd r1)) /\
    Explain.predict clf x_test !! 0%nat = Some (Explain.predict_one clf (snd r0)).
Proof.
  intros Hn.
  assert (H0 : is_Some (Pandas.rows x_test !! 0%nat))
    by (apply lookup_lt_is_Some_2; rewrite rows_length; lia).
  assert (H1 : is_Some (Pandas.rows x_test !! 1%nat))
    by (apply lookup_lt_is_Some_2; rewrite rows_length; lia).
  destruct H0 as [r0 H0], H1 as [r1 H1]. exists r0, r1.
  split; [by rewrite <- rows_lookup|]. split; [by rewrite <- rows_lookup|].
  split; [reflexivity|].
  assert (Hrows : Pandas.rows (Pandas.head_rows 1 x_test) = [r0]).
  { rewrite rows_head_rows. destruct (Pandas.rows x_test) as [|r l]; [done|].
    simpl in H0. injection H0 as ->. reflexivity. }
  split; [exact Hrows|]. split; [by rewrite Hrows|].
  unfold Explain.prediction_value, Explain.predict, Explain.instance_num.
  rewrite !list_lookup_fmap, H0, H1. split; reflexivity.
Qed.

(** ** The consuming cell *)

Section client_facts.
Import Pandas Client.

Lemma to_json_sample :
  to_json sample_table = Return (ujson_dumps sample_by_column).
Proof. reflexivity. Qed.

Lemma loads_to_json_sample :
  Json.loads (ujson_dumps sample_by_column) = Return sample_by_column.
Proof. vm_compute. reflexivity. Qed.

Lemma loads_request_body :
  Json.loads (Json.dumps (VDict [("data", sample_by_column)]))
    = Return (VDict [("data", sample_by_column)]).
Proof. vm_compute. reflexivity. Qed.
End client_facts.

(** C7, as stated, fails: the body that the cell builds for its sample does
    not hold the table in any row-by-row layout. *)
Lemma consume_body_is_not_row_oriented :
  exists r,
    Client.consume "https://aks.example/score" ("token", VNone) = Return r /\
    ~ spec_request_body (Client.body r).
Proof.
  eexists. split.
  - unfold Client.consume. fold sample_table.
    rewrite to_json_sample, bind_Return, loads_to_json_sample, bind_Return.
    reflexivity.
  - intros (o & Ho & Hl).
    change (Client.body _)
      with (Json.dumps (VDict [("data", sample_by_column)])) in Hl.
    rewrite loads_request_body in Hl.
    destruct o; [discriminate Ho|..]; vm_compute in Hl; discriminate Hl.
Qed.

(** C7 (amended): the request is a POST to the scoring URI whose headers
    are exactly [Content-Type: application/json] and
    [Authorization: Bearer <token>], the token being the first component of
    what [get_token] returned, and whose body is the JSON text of an object
    with the single key [data]; under it lies, as a nested object, the
    one-row sample in the default columns layout of [to_json]:
    each column label mapped to [{"0": value}]. *)
Theorem consume_request
    (scoring_uri access_token : string) (refresh_after : pyval) :
  exists r,
    Client.consume scoring_uri (access_token, refresh_after) = Return r /\
    Client.method r = "POST" /\
    Client.url r = scoring_uri /\
    Client.headers r = [("Content-Type", "application/json");
                        ("Authorization", "Bearer " ++ access_token)] /\
    Client.body r = Json.dumps (VDict [("data", sample_by_column)]) /\
    Json.loads (Client.body r) = Return (VDict [("data", sample_by_column)]) /\
    sample_by_column = Pandas.json_layout Pandas.orient_columns sample_table.
Proof.
  eexists. split.
  - unfold Client.consume. fold sample_table.
    rewrite to_json_sample, bind_Return, loads_to_json_sample, bind_Return.
    reflexivity.
  - do 4 (split; [reflexivity|]).
    split; [apply loads_request_body|reflexivity].
Qed.

(** ** The provisioning cells *)

Section provision_facts.
Import Provision.
Context {sdk : CloudSDK}.

Lemma provision_lookup_returns k ws st t w :
  sdk_ComputeTarget ws (cluster_name k) (cloud st) = (Return t, w) ->
  provision k ws st =
    (Return t,
     {| cloud := w;
        stdout := (stdout st ++ [found_message k])%list;
        calls := (calls st ++ [CallComputeTarget (cluster_name k)])%list |}).
Proof.
  intros Hl. destruct k; simpl in Hl;
    unfold provision, provision_cpu_cluster, provision_aks_target,
      try_stmt, seq_stmt, ComputeTarget, call;
    rewrite Hl; reflexivity.
Qed.

Lemma provision_lookup_raises k ws st e w :
  sdk_ComputeTarget ws (cluster_name k) (cloud st) = (Raise e, w) ->
  provision k ws st =
    if is_ComputeTargetException e
    then create_branch k ws (after_lookup k st w)
    else (Raise e, after_lookup k st w).
Proof.
  intros Hl. destruct k; simpl in Hl;
    unfold provision, provision_cpu_cluster, provision_aks_target,
      try_stmt at 1; unfold seq_stmt at 1; unfold ComputeTarget, call;
    rewrite Hl; reflexivity.
Qed.

Lemma create_branch_create_raises k ws st e w :
  sdk_create ws (cluster_name k) (config_of k ws) (cloud st) = (Raise e, w) ->
  fst (create_branch k ws st) = Raise e.
Proof.
  intros Hc. destruct k; simpl in Hc;
    unfold create_branch, create_cpu_cluster, create_aks_target,
      seq_stmt, print, ComputeTarget_create, call; simpl;
    rewrite Hc; reflexivity.
Qed.

Lemma create_cpu_cluster_wait_raises ws st c w e w' :
  sdk_create ws cpu_cluster_name (compute_config ws) (cloud st) = (Return c, w) ->
  sdk_wait_for_completion c w = (Raise e, w') ->
  fst (create_cpu_cluster ws st) = Raise e.
Proof.
  intros Hc Hw.
  unfold create_cpu_cluster, seq_stmt, print, ComputeTarget_create,
    wait_for_completion, call; simpl.
  rewrite Hc. simpl. rewrite Hw. reflexivity.
Qed.
End provision_facts.

(** C3: in each of the two cells the lookup is the one guarded call and
    [ComputeTargetException] the one class caught: when the lookup raises
    it, the cell goes on with its creation branch; when the lookup raises
    anything else, the cell raises that exception and calls nothing more;
    and what the creation branch raises (from [create] or, for the training
    cluster, from [wait_for_completion]) is not caught either. *)
Theorem provision_catches_only_ComputeTargetException
    {sdk : Provision.CloudSDK} (k : Provision.cluster_type)
    (ws : Provision.Workspace) (st : Provision.nb_state) (e : exn)
    (w : Provision.world) :
  Provision.sdk_ComputeTarget ws (Provision.cluster_name k) (Provision.cloud st)
    = (Raise e, w) ->
  (exn_cls e = ComputeTargetException ->
     Provision.provision k ws st
       = Provision.create_branch k ws (after_lookup k st w)) /\
  (exn_cls e <> ComputeTargetException ->
     Provision.provision k ws st = (Raise e, after_lookup k st w)) /\
  (forall st' e' w',
     Provision.sdk_create ws (Provision.cluster_name k)
       (Provision.config_of k ws) (Provision.cloud st') = (Raise e', w') ->
     fst (Provision.create_branch k ws st') = Raise e') /\
  (forall st' c w' e' w'',
     Provision.sdk_create ws Provision.cpu_cluster_name
       (Provision.compute_config ws) (Provision.cloud st') = (Return c, w') ->
     Provision.sdk_wait_for_completion c w' = (Raise e', w'') ->
     fst (Provision.create_cpu_cluster ws st') = Raise e').
Proof.
  intros Hl. rewrite (provision_lookup_raises _ _ _ _ _ Hl).
  unfold Provision.is_ComputeTargetException.
  split; [|split; [|split]].
  - intros He. by rewrite bool_decide_eq_true_2.
  - intros He. by rewrite bool_decide_eq_false_2.
  - intros st' e' w'. apply create_branch_create_raises.
  - intros st' c w' e' w''. apply create_cpu_cluster_wait_raises.
Qed.

Lemma provision_catches_only_ComputeTargetException_witness :
  Provision.mem_ComputeTarget demo_ws "vnetcluster" unreachable_cloud
    = (Raise (mkExn (OtherException "ConnectionError") "unreachable"),
       unreachable_cloud)
  /\ Provision.provision Provision.TrainingCluster demo_ws
       (mem_state unreachable_cloud)
     = (Raise (mkExn (OtherException "ConnectionError") "unreachable"),
        @Provision.mkState Provision.mem_sdk unreachable_cloud []
          [Provision.CallComputeTarget "vnetcluster"]).
Proof.
  split; [reflexivity|].
  apply (provision_catches_only_ComputeTargetException
           (sdk := Provision.mem_sdk) Provision.TrainingCluster demo_ws
           (mem_state unreachable_cloud)
           (mkExn (OtherException "ConnectionError") "unreachable")
           unreachable_cloud); [reflexivity|discriminate].
Defined.

(** C4: for the training and for the inference cluster, when the lookup
    of the cluster name returns the existing target, the cell returns that
    very target, prints that it found it, and has called nothing but the
    lookup: no creation is attempted and nothing is raised. *)
Theorem provision_reuses_existing
    {sdk : Provision.CloudSDK} (k : Provision.cluster_type)
    (ws : Provision.Workspace) (st : Provision.nb_state)
    (t : Provision.compute) (w : Provision.world) :
  Provision.sdk_ComputeTarget ws (Provision.cluster_name k) (Provision.cloud st)
    = (Return t, w) ->
  let '(o, st') := Provision.provision k ws st in
  o = Return t /\
  Provision.cloud st' = w /\
  Provision.stdout st' = (Provision.stdout st ++ [Provision.found_message k])%list /\
  Provision.calls st'
    = (Provision.calls st
         ++ [Provision.CallComputeTarget (Provision.cluster_name k)])%list /\
  existsb Provision.is_create (drop (length (Provision.calls st)) (Provision.calls st'))
    = false.
Proof.
  intros Hl. rewrite (provision_lookup_returns _ _ _ _ _ Hl). simpl.
  do 4 (split; [reflexivity|]).
  rewrite drop_app_length. reflexivity.
Qed.

(** ** The statements at concrete inputs *)

(** The training cell run twice against the control plane in memory: the
    second run finds what the first one created. *)
Lemma provision_reuses_existing_witness :
  let st1 := snd (Provision.provision Provision.TrainingCluster demo_ws
                    (mem_state empty_cloud)) in
  Provision.mem_ComputeTarget demo_ws "vnetcluster" (Provision.cloud st1)
    = (Return ("vnetcluster", Provision.compute_config demo_ws),
       Provision.cloud st1)
  /\ fst (Provision.provision Provision.TrainingCluster demo_ws st1)
     = Return ("vnetcluster", Provision.compute_config demo_ws)
  /\ filter (fun c => Provision.is_create c = true)
       (Provision.calls (snd (Provision.provision Provision.TrainingCluster
                                demo_ws st1)))
     = [Provision.CallCreate "vnetcluster" (Provision.compute_config demo_ws)].
Proof.
  intros st1.
  assert (Hl : Provision.mem_ComputeTarget demo_ws "vnetcluster"
                 (Provision.cloud st1)
               = (Return ("vnetcluster", Provision.compute_config demo_ws),
                  Provision.cloud st1)) by (vm_compute; reflexivity).
  split; [exact Hl|].
  pose proof (provision_reuses_existing (sdk := Provision.mem_sdk)
                Provision.TrainingCluster demo_ws st1 _ _ Hl) as H.
  destruct (Provision.provision Provision.TrainingCluster demo_ws st1)
    as [o st2].
  simpl. destruct H as (Ho & _ & _ & Hcalls & _).
  split; [exact Ho|]. rewrite Hcalls. vm_compute. reflexivity.
Defined.

Lemma drop_uninformative_frame_witness :
  Forall (fun l => l ∈ Pandas.columns attrition_sample) dropped
  /\ exists df',
       Explain.drop_uninformative attrition_sample = Return df' /\
       Pandas.df_index df' = [VInt 0; VInt 1] /\
       Pandas.columns df' = ["Age"; "Attrition"; "Gender"].
Proof.
  assert (Hc : Forall (fun l => l ∈ Pandas.columns attrition_sample) dropped)
    by (unfold dropped; repeat constructor).
  split; [exact Hc|].
  destruct (drop_uninformative_frame attrition_sample Hc)
    as (df' & Hd & Hi & Hdata & _).
  exists df'. split; [exact Hd|]. split; [exact Hi|].
  unfold Pandas.columns. rewrite Hdata. vm_compute. reflexivity.
Defined.

Lemma local_explanation_row_mismatch_witness :
  (2 <= Pandas.nrows unsorted_table)%nat
  /\ Pandas.rows (Pandas.head_rows 1 unsorted_table)
     = [(VInt 0, [("YearsAtCompany", VInt 6); ("Gender", VStr "Female");
                  ("Age", VInt 41)])]
  /\ Explain.prediction_value age_rule unsorted_table = Return (VInt 1)
  /\ Explain.predict age_rule unsorted_table !! 0%nat = Some (VInt 0).
Proof.
  assert (Hn : (2 <= Pandas.nrows unsorted_table)%nat) by (vm_compute; lia).
  split; [exact Hn|].
  destruct (local_explanation_row_mismatch (fun df => df) age_rule
              unsorted_table Hn)
    as (r0 & r1 & H0 & H1 & _ & Hrows & _ & Hp & Hp0).
  vm_compute in H0. injection H0 as <-.
  vm_compute in H1. injection H1 as <-.
  split; [exact Hrows|]. split; [exact Hp|exact Hp0].
Defined.

(** * Further properties of the notebooks' code *)

(** ** Data preparation: what the drops do when a column is missing *)

Section drop_facts.
Import Pandas Explain.

Lemma drop_missing_KeyError l df :
  l ∉ columns df ->
  drop [l] df = Raise (mkExn KeyError (repr_str (str_labels [l] ++ " not found in axis"))).
Proof.
  intros Hl. unfold drop.
  rewrite filter_cons_True by done. by rewrite filter_nil.
Qed.

Lemma columns_without l l' df :
  l' ∈ columns (without l df) <-> l' ∈ columns df /\ l' <> l.
Proof.
  unfold columns, without. simpl. rewrite !list_elem_of_fmap. split.
  - intros ([k s] & -> & Hin). apply list_elem_of_filter in Hin as [Hk Hin].
    simpl in *. rewrite list_elem_of_singleton in Hk.
    split; [by exists (k, s)|done].
  - intros [([k s] & -> & Hin) Hne]. exists (k, s). split; [done|].
    apply list_elem_of_filter. simpl. by rewrite list_elem_of_singleton.
Qed.

Lemma drop_one l df :
  drop [l] df =
    if decide (l ∈ columns df) then Return (without l df)
    else Raise (mkExn KeyError (repr_str (str_labels [l] ++ " not found in axis"))).
Proof.
  destruct (decide (l ∈ columns df)) as [Hl|Hl].
  - by apply drop_present.
  - by apply drop_missing_KeyError.
Qed.

(** The four drops, decided label by label in the order of the cell. *)
Lemma drop_uninformative_cases df :
  drop_uninformative df =
    if decide ("EmployeeCount" ∈ columns df) then
      if decide ("EmployeeNumber" ∈ columns df) then
        if decide ("Over18" ∈ columns df) then
          if decide ("StandardHours" ∈ columns df) then
            Return (without "StandardHours" (without "Over18"
                      (without "EmployeeNumber" (without "EmployeeCount" df))))
          else Raise (mkExn KeyError
                        (repr_str (str_labels ["StandardHours"] ++ " not found in axis")))
        else Raise (mkExn KeyError
                      (repr_str (str_labels ["Over18"] ++ " not found in axis")))
      else Raise (mkExn KeyError
                    (repr_str (str_labels ["EmployeeNumber"] ++ " not found in axis")))
    else Raise (mkExn KeyError
                  (repr_str (str_labels ["EmployeeCount"] ++ " not found in axis"))).
Proof.
  unfold drop_uninformative. rewrite (drop_one "EmployeeCount").
  destruct (decide ("EmployeeCount" ∈ columns df)) as [H1|H1]; [|done].
  rewrite bind_Return, (drop_one "EmployeeNumber").
  destruct (decide ("EmployeeNumber" ∈ columns df)) as [H2|H2].
  - rewrite decide_True by (apply columns_without; split; [done|discriminate]).
    rewrite bind_Return, (drop_one "Over18").
    destruct (decide ("Over18" ∈ columns df)) as [H3|H3].
    + rewrite decide_True
        by (rewrite !columns_without; repeat split; [done|discriminate..]).
      rewrite bind_Return, (drop_one "StandardHours").
      destruct (decide ("StandardHours" ∈ columns df)) as [H4|H4].
      * by rewrite decide_True
          by (rewrite !columns_without; repeat split; [done|discriminate..]).
      * by rewrite decide_False by (rewrite !columns_without; tauto).
    + by rewrite decide_False by (rewrite !columns_without; tauto).
  - by rewrite decide_False by (rewrite !columns_without; tauto).
Qed.

Lemma without_data l df :
  df_data (without l df) = filter (fun c => fst c ∉ [l]) (df_data df).
Proof. reflexivity. Qed.

Lemma drop_uninformative_returns df df' :
  drop_uninformative df = Return df' ->
  Forall (fun l => l ∈ columns df) dropped /\
  df_index df' = df_index df /\
  df_data df' = filter (fun c => fst c ∉ dropped) (df_data df).
Proof.
  rewrite drop_uninformative_cases. repeat case_decide; try discriminate.
  intros [= <-]. split; [unfold dropped; by repeat constructor|].
  split; [reflexivity|]. rewrite !without_data, !list_filter_filter.
  apply list_filter_iff. intros [k s]. unfold dropped. simpl.
  rewrite !elem_of_cons, !elem_of_nil. tauto.
Qed.
End drop_facts.





Section prepare_facts.
Import Pandas Explain.

Lemma getitem_column_returns label df sel :
  getitem_column label df = Return sel ->
  match sel with
  | OneColumn column =>
      filter (fun c => fst c = label) (df_data df) = [(label, column)]
  | SeveralColumns table =>
      df_index table = df_index df /\
      df_data table = filter (fun c => fst c = label) (df_data df) /\
      (2 <= length (df_data table))%nat
  end.
Proof.
  unfold getitem_column.
  destruct (filter _ (df_data df)) as [|[k s] [|c cs]] eqn:Hf; [discriminate|..].
  - intros [= <-]. simpl.
    assert (Hin : (k, s) ∈ filter (fun c : string * Series => fst c = label)
                                    (df_data df))
      by (rewrite Hf; by constructor).
    apply list_elem_of_filter in Hin as [Hk _]. simpl in Hk. by subst k.
  - intros [= <-]. simpl. repeat split. lia.
Qed.

Lemma getitem_column_missing label df :
  label ∉ columns df ->
  getitem_column label df = Raise (mkExn KeyError (repr_str label)).
Proof.
  intros Hl. unfold getitem_column.
  destruct (filter _ (df_data df)) as [|[k s] cs] eqn:Hf; [done|].
  assert (Hin : (k, s) ∈ filter (fun c : string * Series => fst c = label)
                                  (df_data df))
    by (rewrite Hf; by constructor).
  apply list_elem_of_filter in Hin as [Hk Hin]. simpl in Hk. subst k.
  exfalso. apply Hl. unfold columns. apply list_elem_of_fmap.
  by exists (label, s).
Qed.

Lemma drop_returns l df df' :
  drop [l] df = Return df' -> l ∈ columns df /\ df' = without l df.
Proof.
  rewrite drop_one. case_decide; [|discriminate]. by intros [= <-].
Qed.

(** Dropping the four labels in one call. *)
Lemma drop_dropped_cases df :
  drop dropped df =
    match filter (fun l => l ∉ columns df) dropped with
    | [] => Return {| df_index := df_index df;
                      df_data := filter (fun c => fst c ∉ dropped) (df_data df) |}
    | missing =>
        Raise (mkExn KeyError (repr_str (str_labels missing ++ " not found in axis")))
    end.
Proof. reflexivity. Qed.
End prepare_facts.

(** X3: when the data-preparation cell succeeds, the feature table has the
    row index of the input and its columns without the four dropped labels
    and without [Attrition], in the same order; the label column is not
    among the features; and [target] is made of the [Attrition] columns of
    the input, values untouched: the column itself when one column carries
    the label, the table of those columns when several do. *)
Theorem prepare_separates_target
    (df : Pandas.DataFrame) (target : Pandas.selection)
    (attritionXData : Pandas.DataFrame) :
  Explain.prepare df = Return (target, attritionXData) ->
  Pandas.df_index attritionXData = Pandas.df_index df /\
  Pandas.df_data attritionXData
    = filter (fun c => fst c ∉ (dropped ++ ["Attrition"])%list)
             (Pandas.df_data df) /\
  ("Attrition" ∉ Pandas.columns attritionXData) /\
  Forall (fun l => l ∉ Pandas.columns attritionXData) dropped /\
  match target with
  | Pandas.OneColumn column =>
      filter (fun c => fst c = "Attrition") (Pandas.df_data df)
        = [("Attrition", column)]
  | Pandas.SeveralColumns table =>
      Pandas.df_index table = Pandas.df_index df /\
      Pandas.df_data table
        = filter (fun c => fst c = "Attrition") (Pandas.df_data df) /\
      (2 <= length (Pandas.df_data table))%nat
  end.
Proof.
  unfold Explain.prepare. intros Hp.
  destruct (Explain.drop_uninformative df) as [e|df1] eqn:Hd; [discriminate|].
  rewrite bind_Return in Hp.
  destruct (Pandas.getitem_column "Attrition" df1) as [e|t] eqn:Hg;
    [discriminate|].
  rewrite bind_Return in Hp.
  destruct (Pandas.drop ["Attrition"] df1) as [e|df2] eqn:Hx; [discriminate|].
  rewrite bind_Return in Hp. injection Hp as -> ->.
  apply drop_uninformative_returns in Hd as (_ & Hi & Hdata).
  apply drop_returns in Hx as [_ ->].
  apply getitem_column_returns in Hg.
  assert (Hdata' : Pandas.df_data (without "Attrition" df1)
    = filter (fun c => fst c ∉ (dropped ++ ["Attrition"])%list)
             (Pandas.df_data df)).
  { rewrite without_data, Hdata, list_filter_filter.
    apply list_filter_iff. intros [k s]. unfold dropped. simpl.
    rewrite !elem_of_cons, !elem_of_nil. tauto. }
  split; [exact Hi|]. split; [exact Hdata'|].
  assert (Hcols : forall l, l ∈ (dropped ++ ["Attrition"])%list ->
            l ∉ Pandas.columns (without "Attrition" df1)).
  { intros l Hl. unfold Pandas.columns. rewrite Hdata', list_elem_of_fmap.
    intros ([k s] & -> & Hin). by apply list_elem_of_filter in Hin as [Hn _]. }
  split; [apply Hcols; unfold dropped; simpl; by repeat constructor|].
  split; [apply Forall_forall; intros l Hl; apply Hcols, elem_of_app; by left|].
  assert (Hsame : filter (fun c : string * Pandas.Series => fst c = "Attrition")
                         (Pandas.df_data df1)
                  = filter (fun c => fst c = "Attrition") (Pandas.df_data df)).
  { rewrite Hdata, list_filter_filter. apply list_filter_iff.
    intros [k s]. simpl. split; [tauto|]. intros ->. split; [done|].
    unfold dropped. rewrite !elem_of_cons, elem_of_nil.
    intros [?|[?|[?|[?|[]]]]]; discriminate. }
  destruct target as [column|table].
  - by rewrite <- Hsame.
  - destruct Hg as (Hti & Htd & Hlen). rewrite <- Hsame, <- Hi. done.
Qed.

Lemma prepare_separates_target_witness :
  Explain.prepare attrition_sample
    = Return (Pandas.OneColumn (Pandas.mkSeries Pandas.int64 [VInt 0; VInt 1]),
              {| Pandas.df_index := [VInt 0; VInt 1];
                 Pandas.df_data :=
                   [("Age", Pandas.mkSeries Pandas.int64 [VInt 41; VInt 49]);
                    ("Gender", Pandas.mkSeries Pandas.object_
                                 [VStr "Female"; VStr "Male"])] |})
  /\ filter (fun c => fst c = "Attrition") (Pandas.df_data attrition_sample)
     = [("Attrition", Pandas.mkSeries Pandas.int64 [VInt 0; VInt 1])].
Proof.
  assert (Hp : Explain.prepare attrition_sample
    = Return (Pandas.OneColumn (Pandas.mkSeries Pandas.int64 [VInt 0; VInt 1]),
              {| Pandas.df_index := [VInt 0; VInt 1];
                 Pandas.df_data :=
                   [("Age", Pandas.mkSeries Pandas.int64 [VInt 41; VInt 49]);
                    ("Gender", Pandas.mkSeries Pandas.object_
                                 [VStr "Female"; VStr "Male"])] |}))
    by reflexivity.
  split; [exact Hp|].
  apply (prepare_separates_target _ _ _ Hp).
Defined.

(** X4: a table that has the four columns but no [Attrition] column makes
    the cell raise [KeyError: 'Attrition'] at [attritionData["Attrition"]]. *)
Theorem prepare_without_label_column (df : Pandas.DataFrame) :
  Forall (fun l => l ∈ Pandas.columns df) dropped ->
  "Attrition" ∉ Pandas.columns df ->
  Explain.prepare df = Raise (mkExn KeyError "'Attrition'").
Proof.
  intros Hall Hno. unfold Explain.prepare.
  rewrite drop_uninformative_cases.
  rewrite Forall_forall in Hall.
  rewrite !decide_True by (apply Hall; unfold dropped; by repeat constructor).
  rewrite bind_Return, getitem_column_missing; [reflexivity|].
  rewrite !columns_without. tauto.
Qed.

Lemma prepare_without_label_column_witness :
  Explain.prepare (without "Attrition" attrition_sample)
    = Raise (mkExn KeyError "'Attrition'").
Proof.
  apply prepare_without_label_column.
  - unfold dropped. by repeat constructor.
  - vm_compute. intros Hin.
    repeat (apply elem_of_cons in Hin as [Hin|Hin]; [discriminate Hin|]).
    by apply elem_of_nil in Hin.
Defined.

(** X5: the four single-label drops amount to one drop of the four labels:
    either both return, and then the same table, or both raise. *)
Theorem drop_uninformative_as_one_drop (df : Pandas.DataFrame) :
  (forall df', Explain.drop_uninformative df = Return df' <->
               Pandas.drop dropped df = Return df') /\
  (raises (Explain.drop_uninformative df) <-> raises (Pandas.drop dropped df)).
Proof.
  assert (Hone : Forall (fun l => l ∈ Pandas.columns df) dropped ->
    Pandas.drop dropped df
    = Return {| Pandas.df_index := Pandas.df_index df;
                Pandas.df_data :=
                  filter (fun c => fst c ∉ dropped) (Pandas.df_data df) |}).
  { intros Hall. rewrite drop_dropped_cases.
    destruct (filter (fun l => l ∉ Pandas.columns df) dropped) as [|m ms] eqn:Hf;
      [done|].
    assert (Hin : m ∈ filter (fun l => l ∉ Pandas.columns df) dropped)
      by (rewrite Hf; by constructor).
    apply list_elem_of_filter in Hin as [Hn Hin].
    rewrite Forall_forall in Hall. by apply Hall in Hin. }
  assert (Hnone : ~ Forall (fun l => l ∈ Pandas.columns df) dropped ->
    raises (Pandas.drop dropped df)).
  { intros Hmiss. rewrite drop_dropped_cases.
    destruct (filter (fun l => l ∉ Pandas.columns df) dropped) as [|m ms] eqn:Hf;
      [|done].
    exfalso. apply Hmiss, Forall_forall. intros l Hl.
    destruct (decide (l ∈ Pandas.columns df)) as [|Hn]; [done|].
    assert (Hin : l ∈ filter (fun l => l ∉ Pandas.columns df) dropped)
      by (by apply list_elem_of_filter).
    rewrite Hf in Hin. by apply elem_of_nil in Hin. }
  destruct (decide (Forall (fun l => l ∈ Pandas.columns df) dropped))
    as [Hall|Hmiss].
  - rewrite (Hone Hall).
    destruct (Explain.drop_uninformative df) as [e|df1] eqn:Hd.
    + exfalso. revert Hd. rewrite drop_uninformative_cases.
      rewrite Forall_forall in Hall.
      by rewrite !decide_True
        by (apply Hall; unfold dropped; by repeat constructor).
    + apply drop_uninformative_returns in Hd as (_ & Hi & Hdata).
      destruct df1 as [i1 d1]. simpl in *. subst i1 d1. split; [|done].
      intros df'. done.
  - pose proof (Hnone Hmiss) as Hr.
    destruct (Explain.drop_uninformative df) as [e|df1] eqn:Hd.
    + split.
      * intros df'. split; [discriminate|].
        intros Heq. rewrite Heq in Hr. done.
      * done.
    + apply drop_uninformative_returns in Hd as [Hall _]. done.
Qed.

(** ** The categorical and numerical split, column by column *)

Section split_more.
Import Pandas Explain.

Lemma elem_of_categorical df l :
  l ∈ categorical df <-> exists s, (l, s) ∈ df_data df /\ s_dtype s = object_.
Proof.
  rewrite categorical_filter, list_elem_of_fmap. split.
  - intros ([k s] & -> & Hin). apply list_elem_of_filter in Hin as [Hd Hin].
    by exists s.
  - intros (s & Hin & Hd). exists (l, s). split; [done|].
    by apply list_elem_of_filter.
Qed.

Lemma elem_of_columns df l :
  l ∈ columns df <-> exists s, (l, s) ∈ df_data df.
Proof.
  unfold columns. rewrite list_elem_of_fmap. split.
  - intros ([k s] & -> & Hin). by exists s.
  - intros (s & Hin). by exists (l, s).
Qed.
End split_more.

(** X6: the split goes by label, not by column: a label is in [numerical]
    exactly when it is a column label and no column carrying it has dtype
    [object]; it is in [categorical] exactly when some column carrying it
    has.  So a numeric column that shares its label with an [object] column
    is listed under [categorical] only. *)
Theorem split_by_label (df : Pandas.DataFrame) (l : string) :
  (l ∈ Explain.numerical df <->
     l ∈ Pandas.columns df /\
     forall s, (l, s) ∈ Pandas.df_data df -> Pandas.s_dtype s <> Pandas.object_) /\
  (l ∈ Explain.categorical df <->
     exists s, (l, s) ∈ Pandas.df_data df /\ Pandas.s_dtype s = Pandas.object_).
Proof.
  split; [|apply elem_of_categorical].
  rewrite elem_of_numerical, elem_of_categorical. split.
  - intros [Hc Hn]. split; [done|]. intros s Hin Hd. apply Hn. by exists s.
  - intros [Hc Hn]. split; [done|]. intros (s & Hin & Hd). by apply (Hn s).
Qed.

(** X7: with distinct column labels the two lists together hold every
    column exactly once: their concatenation is a rearrangement of the
    columns, has no repeats, and the two lengths add up to the number of
    columns. *)
Theorem split_covers_each_column_once (df : Pandas.DataFrame) :
  NoDup (Pandas.columns df) ->
  (Explain.categorical df ++ Explain.numerical df)%list ≡ₚ Pandas.columns df /\
  NoDup (Explain.categorical df ++ Explain.numerical df)%list /\
  (length (Explain.categorical df) + length (Explain.numerical df)
   = length (Pandas.df_data df))%nat.
Proof.
  intros Hnd. pose proof (categorical_numerical_Permutation df Hnd) as Hp.
  split; [exact Hp|]. split; [by rewrite Hp|].
  rewrite <- length_app, Hp. unfold Pandas.columns. apply length_fmap.
Qed.

Lemma split_covers_each_column_once_witness :
  NoDup (Pandas.columns unsorted_table)
  /\ (Explain.categorical unsorted_table ++ Explain.numerical unsorted_table)%list
     ≡ₚ ["YearsAtCompany"; "Gender"; "Age"].
Proof.
  assert (Hnd : NoDup (Pandas.columns unsorted_table))
    by compute_done.
  split; [exact Hnd|].
  apply (split_covers_each_column_once unsorted_table Hnd).
Defined.

(** X8: [numerical] does not depend on the order of the columns: two
    tables with the same columns in different orders get the same
    [numerical] list, while [categorical] follows the order of the table
    and is only rearranged. *)
Theorem numerical_ignores_column_order (df df' : Pandas.DataFrame) :
  Pandas.df_data df ≡ₚ Pandas.df_data df' ->
  Explain.numerical df = Explain.numerical df' /\
  Explain.categorical df ≡ₚ Explain.categorical df'.
Proof.
  intros Hp.
  assert (Hcat : Explain.categorical df ≡ₚ Explain.categorical df')
    by (by rewrite !categorical_filter, Hp).
  split; [|exact Hcat].
  apply (StronglySorted_unique String.le).
  - apply StronglySorted_merge_sort; apply _.
  - apply StronglySorted_merge_sort; apply _.
  - apply NoDup_Permutation; [apply NoDup_Index_difference..|].
    intros l. rewrite !elem_of_numerical. unfold Pandas.columns.
    by rewrite Hp, Hcat.
Qed.

Lemma numerical_ignores_column_order_witness :
  Explain.numerical
    {| Pandas.df_index := Pandas.df_index unsorted_table;
       Pandas.df_data := reverse (Pandas.df_data unsorted_table) |}
  = Explain.numerical unsorted_table.
Proof.
  apply numerical_ignores_column_order. simpl. apply reverse_Permutation.
Defined.

(** ** Local explanations on a test set of one row *)



(** ** Tables built from records *)

Section records_facts.
Import Pandas.




End records_facts.



(** ** Decoding what the encoders write *)

Section decoding_facts.
Import Json.

Lemma app_String c s t : (String c s ++ t) = String c (s ++ t).
Proof. reflexivity. Qed.
Lemma app_Empty t : (EmptyString ++ t) = t.
Proof. reflexivity. Qed.

Lemma closes_cases rest :
  closes rest = true ->
  rest = EmptyString \/ exists c r, rest = String c r /\
    (c = "," \/ c = "]" \/ c = "}")%char.
Proof.
  destruct rest as [|c r]; [by left|]. simpl. intros H. right. exists c, r.
  split; [done|].
  apply orb_true_iff in H as [H|H]; [apply orb_true_iff in H as [H|H]|];
    apply Ascii.eqb_eq in H; auto.
Qed.

Lemma scan_digits_closes rest acc :
  closes rest = true -> scan_digits rest acc = (acc, rest).
Proof.
  intros H. apply closes_cases in H as [->|(c & r & -> & [->|[->| ->]])];
    reflexivity.
Qed.

Lemma scan_digits_uint d acc rest :
  closes rest = true ->
  scan_digits (NilEmpty.string_of_uint d ++ rest) (Z.pos acc)
  = (Z.pos (Pos.of_uint_acc d acc), rest).
Proof.
  intros Hc. revert acc.
  induction d as [|d IH|d IH|d IH|d IH|d IH|d IH|d IH|d IH|d IH|d IH];
    intros acc; simpl NilEmpty.string_of_uint;
    [by apply scan_digits_closes|..];
    rewrite app_String; cbn [scan_digits Pos.of_uint_acc];
    match goal with
    | |- context [digit_value ?c] =>
        let v := eval vm_compute in (digit_value c) in
        change (digit_value c) with v
    end; cbv iota; rewrite <- IH; f_equal; lia.
Qed.

Lemma unorm_D0 d l : Decimal.unorm d = Decimal.D0 l -> l = Decimal.Nil.
Proof.
  induction d; simpl; try discriminate; auto. by intros [= <-].
Qed.

Lemma to_uint_not_D0 p l : Pos.to_uint p <> Decimal.D0 l.
Proof.
  intros H. pose proof (DecimalPos.Unsigned.to_of (Pos.to_uint p)) as Hn.
  rewrite DecimalPos.Unsigned.of_to in Hn. simpl in Hn. rewrite H in Hn.
  symmetry in Hn. pose proof (unorm_D0 _ _ Hn) as ->.
  by apply (DecimalPos.Unsigned.to_uint_nonzero p).
Qed.

Lemma scan_int_nonneg c r :
  c <> "-"%char ->
  scan_int (String c r) =
    (d ← digit_value c;
     let '(n, rest) := scan_digits (String c r) 0 in
     match rest with
     | String "." _ | String "e" _ | String "E" _ => None
     | _ =>
         if (d =? 0) && negb (String.length (String c r) - String.length rest =? 1)%nat
         then None
         else Some (n, rest)
     end).
Proof.
  intros Hne. destruct c as [[] [] [] [] [] [] [] []]; try reflexivity.
  by destruct Hne.
Qed.

Lemma closes_not_float rest {A} (x : A) :
  closes rest = true ->
  match rest with
  | String "." _ | String "e" _ | String "E" _ => None
  | _ => Some x
  end = Some x.
Proof.
  intros H. apply closes_cases in H as [->|(c & r & -> & [->|[->| ->]])];
    reflexivity.
Qed.

(** A positive numeral is read back. *)
Lemma scan_uint_pos p rest :
  closes rest = true ->
  exists c r, (NilEmpty.string_of_uint (Pos.to_uint p) ++ rest) = String c r /\
    c <> "-"%char /\
    (exists d, digit_value c = Some d /\ d <> 0) /\
    scan_digits (String c r) 0 = (Z.pos p, rest).
Proof.
  intros Hc. pose proof (DecimalPos.Unsigned.of_to p) as Hof.
  destruct (Pos.to_uint p) as [|d|d|d|d|d|d|d|d|d|d] eqn:E;
    [by destruct (DecimalPos.Unsigned.to_uint_nonnil p)
    |by destruct (to_uint_not_D0 p d)|..];
    simpl NilEmpty.string_of_uint; rewrite app_String;
    (eexists _, _; split; [reflexivity|]; split; [discriminate|]; split;
     [eexists; split; [reflexivity|discriminate]|]);
    simpl in Hof; injection Hof as <-;
    cbn [scan_digits];
    match goal with
    | |- context [digit_value ?c] =>
        let v := eval vm_compute in (digit_value c) in
        change (digit_value c) with v
    end; cbv iota;
    match goal with
    | |- scan_digits _ ?a = _ =>
        let v := eval vm_compute in a in change a with v
    end; by apply scan_digits_uint.
Qed.

Lemma bind_Some_eq {A B} (a : A) (f : A -> option B) : (Some a ≫= f) = f a.
Proof. reflexivity. Qed.

Lemma scan_int_repr z rest :
  closes rest = true -> scan_int (int_repr z ++ rest) = Some (z, rest).
Proof.
  intros Hc. unfold int_repr. destruct z as [|p|p]; simpl Z.to_int.
  - simpl NilZero.string_of_int. rewrite app_String, app_Empty.
    rewrite scan_int_nonneg by discriminate.
    change (digit_value "0") with (Some 0). rewrite bind_Some_eq.
    cbn [scan_digits]. change (digit_value "0") with (Some 0). cbv iota.
    change (10 * 0 + 0) with 0. rewrite (scan_digits_closes _ _ Hc).
    replace (String.length (String "0" rest) - String.length rest =? 1)%nat
      with true by (symmetry; apply Nat.eqb_eq; simpl; lia).
    simpl. by apply closes_not_float.
  - unfold NilZero.string_of_int, NilZero.string_of_uint.
    destruct (scan_uint_pos p rest Hc) as (c & r & Hs & Hne & (d & Hd & Hd0) & Hsd).
    replace (match Pos.to_uint p with
             | Decimal.Nil => "0"
             | _ => NilEmpty.string_of_uint (Pos.to_uint p)
             end) with (NilEmpty.string_of_uint (Pos.to_uint p))
      by (destruct (Pos.to_uint p) eqn:E; [by destruct (DecimalPos.Unsigned.to_uint_nonnil p)|done..]).
    rewrite Hs, (scan_int_nonneg _ _ Hne), Hd, bind_Some_eq, Hsd.
    replace (d =? 0) with false by (symmetry; by apply Z.eqb_neq).
    simpl. by apply closes_not_float.
  - unfold NilZero.string_of_int, NilZero.string_of_uint.
    destruct (scan_uint_pos p rest Hc) as (c & r & Hs & Hne & (d & Hd & Hd0) & Hsd).
    replace (match Pos.to_uint p with
             | Decimal.Nil => "0"
             | _ => NilEmpty.string_of_uint (Pos.to_uint p)
             end) with (NilEmpty.string_of_uint (Pos.to_uint p))
      by (destruct (Pos.to_uint p) eqn:E; [by destruct (DecimalPos.Unsigned.to_uint_nonnil p)|done..]).
    rewrite app_String, Hs. unfold scan_int.
    rewrite Hd, bind_Some_eq, Hsd.
    replace (d =? 0) with false by (symmetry; by apply Z.eqb_neq).
    simpl. by apply closes_not_float.
Qed.

Lemma string_app_assoc (a b c : string) : ((a ++ b) ++ c) = (a ++ (b ++ c)).
Proof. induction a; [done|]. rewrite !app_String. by f_equal. Qed.

Lemma string_length_app (a b : string) :
  String.length (a ++ b) = (String.length a + String.length b)%nat.
Proof. induction a; [done|]. rewrite app_String. simpl. by f_equal. Qed.

Lemma scan_string_escape_char c t :
  scan_string (escape_char c ++ t)
  = '(s', r) ← scan_string t; Some (String c s', r).
Proof.
  destruct c as [[] [] [] [] [] [] [] []];
    (match goal with
     | |- context [escape_char ?c] =>
         let s := eval vm_compute in (escape_char c) in
         change (escape_char c) with s
     end;
     rewrite ?app_String, app_Empty; simpl; reflexivity).
Qed.

Lemma scan_string_escape s rest :
  scan_string (escape s ++ String dquote rest) = Some (s, rest).
Proof.
  induction s as [|c s IH]; [reflexivity|].
  simpl. rewrite string_app_assoc, scan_string_escape_char, IH. reflexivity.
Qed.

Lemma quote_app s rest :
  (quote s ++ rest) = String dquote (escape s ++ String dquote rest).
Proof.
  unfold quote. rewrite app_String, string_app_assoc, app_String, app_Empty.
  reflexivity.
Qed.

Lemma int_repr_head z :
  exists c r, int_repr z = String c r /\
    (c = "-"%char \/ is_Some (digit_value c)).
Proof.
  unfold int_repr. destruct z as [|p|p]; simpl.
  - eexists _, _. split; [done|]. right. by eexists.
  - unfold NilZero.string_of_uint.
    destruct (Pos.to_uint p) eqn:E;
      [by destruct (DecimalPos.Unsigned.to_uint_nonnil p)|..];
      (eexists _, _; split; [done|]; right; by eexists).
  - eexists _, _. split; [done|]. by left.
Qed.

Lemma number_starts_value c :
  (c = "-"%char \/ is_Some (digit_value c)) -> starts_value c = true.
Proof.
  intros [->|[d H]]; [done|]. unfold starts_value. by rewrite H.
Qed.

Lemma scan_value_skip_space fuel s :
  scan_value fuel (String " " s) = scan_value fuel s.
Proof. by destruct fuel. Qed.

Lemma scan_value_number fuel c r :
  (c = "-"%char \/ is_Some (digit_value c)) ->
  scan_value (S fuel) (String c r)
  = '(z, r') ← scan_int (String c r); Some (VInt z, r').
Proof.
  destruct c as [[] [] [] [] [] [] [] []];
    intros [H|[d H]]; try discriminate; reflexivity.
Qed.

Lemma scan_value_open_list fuel c r :
  starts_value c = true ->
  scan_value (S fuel) (String "[" (String c r))
  = scan_elements (scan_value fuel) fuel (String c r) [].
Proof.
  destruct c as [[] [] [] [] [] [] [] []]; intros H; try discriminate;
    reflexivity.
Qed.

Lemma scan_value_skip_gap sp fuel s :
  gap sp -> scan_value fuel (sp ++ s) = scan_value fuel s.
Proof. intros [->| ->]; [done|]. apply scan_value_skip_space. Qed.

Lemma scan_elements_skip_gap sp fuel n s acc :
  gap sp ->
  scan_elements (scan_value fuel) n (sp ++ s) acc
  = scan_elements (scan_value fuel) n s acc.
Proof.
  intros Hsp. destruct n; [done|]. simpl. by rewrite scan_value_skip_gap.
Qed.

Lemma scan_members_skip_gap sp fuel n s acc :
  gap sp ->
  scan_members (scan_value fuel) n (sp ++ s) acc
  = scan_members (scan_value fuel) n s acc.
Proof. intros [->| ->]; [done|]. by destruct n. Qed.

Lemma join_cons sep x y l :
  join sep (x :: y :: l) = (x ++ sep ++ join sep (y :: l)).
Proof. reflexivity. Qed.

Lemma scan_elements_encoded txt sp fuel rest l :
  gap sp -> l <> [] -> Forall (reads_back txt fuel) l ->
  forall n acc, (length l <= n)%nat ->
  scan_elements (scan_value fuel) n
    (join (String "," sp) (map txt l) ++ String "]" rest) acc
  = Some (VList (acc ++ l)%list, rest).
Proof.
  intros Hsp Hne Hall. induction Hall as [|x l Hx Hall IH]; [done|].
  intros n acc Hn. destruct n as [|n]; [simpl in Hn; lia|].
  destruct l as [|y l].
  - change (join (String "," sp) (map txt [x])) with (txt x).
    cbn [scan_elements]. rewrite (Hx (String "]" rest) eq_refl), bind_Some_eq.
    reflexivity.
  - change (map txt (x :: y :: l)) with (txt x :: txt y :: map txt l).
    rewrite join_cons, !string_app_assoc, app_String.
    cbn [scan_elements].
    rewrite (Hx (String "," _) eq_refl), bind_Some_eq.
    cbn [skip_ws is_ws]. cbv iota. rewrite scan_elements_skip_gap by done.
    change (txt y :: map txt l) with (map txt (y :: l)).
    rewrite IH by (done || (simpl in *; lia)).
    by rewrite <- app_assoc.
Qed.

Lemma dict_set_fresh k v acc :
  k ∉ acc.*1 -> dict_set k v acc = (acc ++ [(k, v)])%list.
Proof.
  induction acc as [|[k' v'] acc IH]; [done|].
  simpl. rewrite not_elem_of_cons. intros [Hne Hk].
  rewrite decide_False by done. by rewrite IH.
Qed.

Lemma scan_members_encoded qt txt sp fuel rest d :
  key_reads_back qt -> gap sp ->
  d <> [] -> Forall (fun kv => reads_back txt fuel (snd kv)) d ->
  forall n acc, (length d <= n)%nat -> NoDup (acc ++ d)%list.*1 ->
  scan_members (scan_value fuel) n
    (join (String "," sp) (map (member_text qt sp txt) d) ++ String "}" rest) acc
  = Some (VDict (acc ++ d)%list, rest).
Proof.
  intros Hqt Hsp Hne Hall. induction Hall as [|[k x] d Hx Hall IH]; [done|].
  intros n acc Hn Hnd. destruct n as [|n]; [simpl in Hn; lia|].
  assert (Hk : k ∉ acc.*1).
  { rewrite fmap_app in Hnd. apply NoDup_app in Hnd as (_ & Hd & _).
    intros Hin. apply (Hd _ Hin). simpl. by constructor. }
  simpl in Hx.
  assert (Hstep : forall tail, closes tail = true ->
    scan_members (scan_value fuel) (S n) (member_text qt sp txt (k, x) ++ tail) acc
    = match skip_ws tail with
      | String "," r4 => scan_members (scan_value fuel) n r4 (acc ++ [(k, x)])%list
      | String "}" r4 => Some (VDict (acc ++ [(k, x)])%list, r4)
      | _ => None
      end).
  { intros tail Ht. unfold member_text. simpl fst. simpl snd.
    rewrite !string_app_assoc.
    destruct (Hqt k (String ":" sp ++ txt x ++ tail)) as (body & -> & Hbody).
    cbn [scan_members skip_ws]. change (is_ws dquote) with false. cbv iota.
    rewrite Hbody, bind_Some_eq. rewrite app_String.
    cbn [skip_ws is_ws]. cbv iota.
    rewrite scan_value_skip_gap by done.
    rewrite (Hx _ Ht), bind_Some_eq.
    by rewrite (dict_set_fresh _ _ _ Hk). }
  destruct d as [|kv d].
  - change (join (String "," sp) (map (member_text qt sp txt) [(k, x)]))
      with (member_text qt sp txt (k, x)).
    rewrite (Hstep (String "}" rest) eq_refl). reflexivity.
  - change (map (member_text qt sp txt) ((k, x) :: kv :: d))
      with (member_text qt sp txt (k, x) :: member_text qt sp txt kv
              :: map (member_text qt sp txt) d).
    rewrite join_cons, !string_app_assoc, app_String.
    rewrite (Hstep (String "," _) eq_refl).
    cbn [skip_ws is_ws]. cbv iota.
    rewrite scan_members_skip_gap by done.
    change (member_text qt sp txt kv :: map (member_text qt sp txt) d)
      with (map (member_text qt sp txt) (kv :: d)).
    rewrite IH.
    + by rewrite <- app_assoc.
    + done.
    + simpl in *. lia.
    + by rewrite <- app_assoc.
Qed.

Lemma dumps_encode v : dumps v = encode quote " " v.
Proof.
  induction v as [|b|z|s|l IH|d IH] using pyval_nested_ind; try reflexivity.
  - simpl. do 3 f_equal. apply map_ext_Forall. exact IH.
  - simpl. do 3 f_equal. apply map_ext_Forall.
    eapply Forall_impl; [exact IH|]. intros [k x] Hx. simpl in *. by rewrite Hx.
Qed.


Lemma string_app_nil_r (s : string) : (s ++ EmptyString) = s.
Proof. induction s; [done|]. rewrite app_String. by f_equal. Qed.

Lemma key_head qt s :
  key_reads_back qt -> exists r, qt s = String dquote r.
Proof.
  intros Hqt. destruct (Hqt s EmptyString) as (body & E & _).
  rewrite string_app_nil_r in E. by exists body.
Qed.

Lemma encode_head qt sp v :
  key_reads_back qt ->
  exists c r, encode qt sp v = String c r /\ starts_value c = true.
Proof.
  intros Hqt. destruct v as [|[]|z|s|l|d]; simpl; try (by eexists _, _).
  - destruct (int_repr_head z) as (c & r & E & H). exists c, r.
    split; [done|]. by apply number_starts_value.
  - destruct (key_head qt s Hqt) as [r E]. by exists dquote, r.
Qed.

Lemma fold_max_ge {A} (f : A -> nat) n0 (l : list A) :
  (n0 <= fold_right (fun x m => Nat.max (f x) m) n0 l)%nat /\
  Forall (fun x => (f x <= fold_right (fun x m => Nat.max (f x) m) n0 l)%nat) l.
Proof.
  induction l as [|x l [IH1 IH2]]; simpl; [split; [lia|constructor]|].
  split; [lia|]. constructor; [lia|].
  eapply Forall_impl; [exact IH2|]. simpl. intros; lia.
Qed.

Lemma fold_max_le {A} (f : A -> nat) n0 (l : list A) B :
  (n0 <= B)%nat -> Forall (fun x => (f x <= B)%nat) l ->
  (fold_right (fun x m => Nat.max (f x) m) n0 l <= B)%nat.
Proof. intros H0. induction 1; simpl; lia. Qed.

Lemma join_head {A} sep (f : A -> string) x l c r :
  f x = String c r -> exists r', join sep (map f (x :: l)) = String c r'.
Proof.
  intros E. destruct l as [|y l].
  - by exists r.
  - change (map f (x :: y :: l)) with (f x :: f y :: map f l).
    rewrite join_cons, E, app_String. by eexists.
Qed.

Lemma scan_value_open_dict fuel r :
  scan_value (S fuel) (String "{" (String dquote r))
  = scan_members (scan_value fuel) fuel (String dquote r) [].
Proof. reflexivity. Qed.

Lemma encode_list qt sp l :
  encode qt sp (VList l)
  = ("[" ++ join (String "," sp) (map (encode qt sp) l) ++ "]").
Proof. reflexivity. Qed.

Lemma encode_dict qt sp d :
  encode qt sp (VDict d)
  = ("{" ++ join (String "," sp) (map (member_text qt sp (encode qt sp)) d) ++ "}").
Proof. reflexivity. Qed.

Lemma encode_reads_back qt sp v :
  key_reads_back qt -> gap sp ->
  distinct_keys v = true ->
  forall fuel, (fuel_needed v <= fuel)%nat -> reads_back (encode qt sp) fuel v.
Proof.
  intros Hqt Hsp.
  induction v as [|b|z|s|l IH|d IH] using pyval_nested_ind;
    intros Hwf fuel Hfuel rest Hrest;
    (destruct fuel as [|fuel]; [simpl in Hfuel; lia|]).
  - reflexivity.
  - by destruct b.
  - change (encode qt sp (VInt z)) with (int_repr z).
    pose proof (scan_int_repr z rest Hrest) as Hz.
    destruct (int_repr_head z) as (c & r & E & Hc).
    rewrite E, app_String in *.
    by rewrite (scan_value_number _ _ _ Hc), Hz.
  - change (encode qt sp (VStr s)) with (qt s).
    destruct (Hqt s rest) as (body & -> & Hbody).
    cbn [scan_value skip_ws]. change (is_ws dquote) with false. cbv iota.
    by rewrite Hbody.
  - rewrite encode_list, !app_String, !app_Empty, string_app_assoc, app_String, app_Empty.
    destruct l as [|x l]; [reflexivity|].
    destruct (encode_head qt sp x Hqt) as (c & r & E & Hc).
    destruct (join_head (String "," sp) (encode qt sp) x l c r E) as [r' HJ].
    rewrite HJ, app_String, (scan_value_open_list _ _ _ Hc).
    rewrite <- app_String, <- HJ.
    pose proof (fold_max_ge fuel_needed (length (x :: l)) (x :: l)) as [Hlen Hneed].
    change (fuel_needed (VList (x :: l)))
      with (S (fold_right (fun x m => Nat.max (fuel_needed x) m) (length (x :: l)) (x :: l)))
      in Hfuel.
    change (distinct_keys (VList (x :: l)))
      with (forallb distinct_keys (x :: l)) in Hwf.
    rewrite forallb_forall in Hwf.
    rewrite (scan_elements_encoded (encode qt sp) sp fuel rest (x :: l));
      [done|done|done| |lia].
    rewrite Forall_forall in IH, Hneed. apply Forall_forall. intros y Hy.
    apply (IH y Hy).
    + apply Hwf. by apply list_elem_of_In.
    + specialize (Hneed y Hy). lia.
  - rewrite encode_dict, !app_String, !app_Empty, string_app_assoc, app_String, app_Empty.
    destruct d as [|[k x] d]; [reflexivity|].
    destruct (key_head qt k Hqt) as [rk Ek].
    destruct (join_head (String "," sp) (member_text qt sp (encode qt sp)) (k, x) d
                dquote (rk ++ String ":" sp ++ encode qt sp x))
      as [r' HJ].
    { unfold member_text. simpl fst. simpl snd. by rewrite Ek, app_String. }
    rewrite HJ, app_String, scan_value_open_dict.
    rewrite <- app_String, <- HJ.
    pose proof (fold_max_ge (fun kv : string * pyval => fuel_needed (snd kv))
                  (length ((k, x) :: d)) ((k, x) :: d)) as [Hlen Hneed].
    change (fuel_needed (VDict ((k, x) :: d)))
      with (S (fold_right (fun kv m => Nat.max (fuel_needed (snd kv)) m)
                 (length ((k, x) :: d)) ((k, x) :: d))) in Hfuel.
    change (distinct_keys (VDict ((k, x) :: d)))
      with (bool_decide (NoDup ((k, x) :: d).*1)
            && forallb (fun kv => distinct_keys (snd kv)) ((k, x) :: d)) in Hwf.
    apply andb_prop in Hwf as [Hnd Hwf]. apply bool_decide_eq_true in Hnd.
    rewrite forallb_forall in Hwf.
    rewrite (scan_members_encoded qt (encode qt sp) sp fuel rest ((k, x) :: d));
      [done|done|done|done| |lia|done].
    rewrite Forall_forall in IH, Hneed. apply Forall_forall. intros kv Hkv.
    apply (IH kv Hkv).
    + apply Hwf. by apply list_elem_of_In.
    + specialize (Hneed kv Hkv). cbv beta in Hneed. lia.
Qed.

Lemma length_join_ge sep (ls : list string) :
  Forall (fun s => (1 <= String.length s)%nat) ls ->
  (length ls <= String.length (join sep ls))%nat /\
  Forall (fun s => (String.length s <= String.length (join sep ls))%nat) ls.
Proof.
  induction 1 as [|x l Hx Hl [IH1 IH2]]; [split; [done|constructor]|].
  destruct l as [|y l].
  - change (join sep [x]) with x. split; [simpl; lia|]. by repeat constructor.
  - rewrite join_cons, !string_length_app. simpl length in *. split; [lia|].
    constructor; [lia|]. eapply Forall_impl; [exact IH2|]. simpl. intros; lia.
Qed.

Lemma fuel_needed_pos v : (1 <= fuel_needed v)%nat.
Proof. destruct v; simpl; lia. Qed.

Lemma fuel_needed_le_length qt sp v :
  key_reads_back qt -> (fuel_needed v <= String.length (encode qt sp v))%nat.
Proof.
  intros Hqt.
  induction v as [|b|z|s|l IH|d IH] using pyval_nested_ind.
  - simpl. lia.
  - destruct b; simpl; lia.
  - destruct (int_repr_head z) as (c & r & E & _). simpl. rewrite E. simpl. lia.
  - destruct (key_head qt s Hqt) as [r E]. simpl. rewrite E. simpl. lia.
  - rewrite encode_list, !string_length_app.
    change (fuel_needed (VList l))
      with (S (fold_right (fun x m => Nat.max (fuel_needed x) m) (length l) l)).
    destruct (length_join_ge (String "," sp) (map (encode qt sp) l)) as [H1 H2].
    { apply Forall_fmap. eapply Forall_impl; [exact IH|]. simpl.
      intros x Hx. pose proof (fuel_needed_pos x). lia. }
    rewrite length_map in H1. apply Forall_fmap in H2.
    pose proof (fold_max_le fuel_needed (length l) l _ H1) as Hle.
    simpl String.length. specialize (Hle ltac:(
      apply Forall_forall; intros x Hx;
      rewrite Forall_forall in IH, H2;
      specialize (IH x Hx); specialize (H2 x Hx); simpl in H2; lia)).
    lia.
  - rewrite encode_dict, !string_length_app.
    change (fuel_needed (VDict d))
      with (S (fold_right (fun kv m => Nat.max (fuel_needed (snd kv)) m) (length d) d)).
    assert (Hm : Forall (fun kv : string * pyval =>
                   (fuel_needed (snd kv) <= String.length (member_text qt sp (encode qt sp) kv))%nat) d).
    { eapply Forall_impl; [exact IH|]. intros [k x] Hx. unfold member_text.
      rewrite !string_length_app. simpl in *. lia. }
    destruct (length_join_ge (String "," sp)
                (map (member_text qt sp (encode qt sp)) d)) as [H1 H2].
    { apply Forall_fmap. eapply Forall_impl; [exact Hm|]. simpl.
      intros kv Hkv. pose proof (fuel_needed_pos (snd kv)). lia. }
    rewrite length_map in H1. apply Forall_fmap in H2.
    pose proof (fold_max_le (fun kv : string * pyval => fuel_needed (snd kv))
                  (length d) d _ H1) as Hle.
    simpl String.length. specialize (Hle ltac:(
      apply Forall_forall; intros kv Hkv;
      rewrite Forall_forall in Hm, H2;
      specialize (Hm kv Hkv); specialize (H2 kv Hkv); simpl in H2; lia)).
    lia.
Qed.

Lemma loads_encode qt sp v :
  key_reads_back qt -> gap sp -> distinct_keys v = true ->
  loads (encode qt sp v) = Return v.
Proof.
  intros Hqt Hsp Hwf. unfold loads.
  pose proof (encode_reads_back qt sp v Hqt Hsp Hwf
                (S (String.length (encode qt sp v)))) as Hr.
  rewrite <- (string_app_nil_r (encode qt sp v)) at 2.
  rewrite Hr; [reflexivity| |reflexivity].
  pose proof (fuel_needed_le_length qt sp v Hqt). lia.
Qed.

Lemma quote_reads_back : key_reads_back quote.
Proof.
  intros k rest. eexists. split; [apply quote_app|apply scan_string_escape].
Qed.




Lemma loads_dumps_any v :
  distinct_keys v = true -> loads (dumps v) = Return v.
Proof.
  intros Hwf. rewrite dumps_encode.
  apply loads_encode; [apply quote_reads_back|by right|done].
Qed.


End decoding_facts.



(** X12: on a request that the input schema converts, the string that
    [run] returns decodes with [json.loads] to exactly the object that was
    serialised: [{"error": str(e)}] for every exception of the [try]
    block, [{"result": values}] for every prediction array whose entries
    [json] writes (dict keys distinct); and the JSON encoding of the
    returned string decodes to that string again, so that two rounds of
    decoding recover the payload. *)
Theorem run_text_decodes
    (param_type : Score.ParameterType) (g : Score.globals)
    (request : pyval) (data : Pandas.DataFrame) :
  Score.deserialize_input param_type request = Return data ->
  (forall values,
     Score.model_predict g data = Return (Score.Array (map Score.Plain values)) ->
     distinct_keys (VList values) = true) ->
  exists s payload,
    Score.run param_type g request = Return (VStr s) /\
    Json.loads s = Return payload /\
    Json.loads (Json.dumps (VStr s)) = Return (VStr s) /\
    ((exists values,
        Score.model_predict g data
          = Return (Score.Array (map Score.Plain values)) /\
        payload = VDict [("result", VList values)]) \/
     (exists e,
        raised_in_try g data e /\
        payload = VDict [("error", VStr (str e))])).
Proof.
  intros Hc Hwf. rewrite (run_converted _ _ _ _ Hc).
  destruct (run_body_cases g data)
    as [(entries & values & Hp & Hs & ->)|(e & Hr & ->)].
  - apply serializable_returns in Hs as ->.
    exists (Json.dumps (result_payload values)), (result_payload values).
    split; [reflexivity|]. split.
    { apply loads_dumps_any. unfold result_payload.
      change (distinct_keys (VDict [("result", VList values)]))
        with (bool_decide (NoDup ["result"])
              && (distinct_keys (VList values) && true)).
      rewrite (Hwf _ Hp). by compute_done. }
    split; [by apply loads_dumps_any|].
    left. by exists values.
  - exists (Json.dumps (error_payload e)), (error_payload e).
    split; [reflexivity|]. split; [by apply loads_dumps_any|].
    split; [by apply loads_dumps_any|].
    right. by exists e.
Qed.

Lemma run_text_decodes_witness :
  exists s,
    Score.run records_parameter (Score.mkGlobals (Some always_zero))
      sample_request = Return (VStr s) /\
    Json.loads s = Return (VDict [("result", VList [VInt 0])]).
Proof.
  destruct (run_text_decodes records_parameter
              (Score.mkGlobals (Some always_zero)) sample_request sample_table
              eq_refl)
    as (s & payload & Hs & Hl & _ & _).
  - intros [|v [|v' values]] Hv; try discriminate Hv.
    injection Hv as <-. reflexivity.
  - exists s. split; [exact Hs|].
    vm_compute in Hs. injection Hs as <-. vm_compute. reflexivity.
Defined.

(** ** The request body for any sample *)

Section body_facts.
Import Pandas.






End body_facts.



(** ** What a provisioning cell calls and prints *)

(** X14: whatever the SDK answers, a provisioning cell starts with the
    lookup of its cluster name and then does one of three things: nothing
    more, printing the found line or no line at all; or one [create] of
    that same name with the cell's configuration, after printing the
    creating line; or, for the training cluster only, that [create]
    followed by one [wait_for_completion].  It never creates twice, never
    creates under another name, and the inference cell never waits. *)
Theorem provision_calls {sdk : Provision.CloudSDK}
    (k : Provision.cluster_type) (ws : Provision.Workspace)
    (st : Provision.nb_state) :
  exists new out,
    Provision.calls (snd (Provision.provision k ws st))
      = (Provision.calls st
           ++ Provision.CallComputeTarget (Provision.cluster_name k) :: new)%list /\
    Provision.stdout (snd (Provision.provision k ws st))
      = (Provision.stdout st ++ out)%list /\
    (new = [] /\ (out = [] \/ out = [Provision.found_message k])
     \/ out = [creating_message k] /\
        (new = [Provision.CallCreate (Provision.cluster_name k)
                  (Provision.config_of k ws)]
         \/ k = Provision.TrainingCluster /\
            new = [Provision.CallCreate (Provision.cluster_name k)
                     (Provision.config_of k ws);
                   Provision.CallWaitForCompletion])).
Proof.
  destruct (Provision.sdk_ComputeTarget ws (Provision.cluster_name k)
              (Provision.cloud st)) as [[e|t] w] eqn:Hl.
  - rewrite (provision_lookup_raises _ _ _ _ _ Hl).
    destruct (Provision.is_ComputeTargetException e).
    + destruct k; simpl in *;
        unfold Provision.create_cpu_cluster, Provision.create_aks_target,
          Provision.seq_stmt, Provision.print, Provision.ComputeTarget_create,
          Provision.wait_for_completion, Provision.call; simpl.
      * destruct (Provision.sdk_create ws Provision.cpu_cluster_name
                    (Provision.compute_config ws) w) as [[e'|c] w'].
        -- eexists _, _. split; [by rewrite <- app_assoc|]. split; [done|].
           right. split; [reflexivity|]. by left.
        -- simpl. destruct (Provision.sdk_wait_for_completion c w') as [[e'|[]] w''];
             (eexists _, _; split; [by rewrite <- !app_assoc|]; split; [done|];
              right; split; [reflexivity|]; right; by split).
      * destruct (Provision.sdk_create ws Provision.aks_cluster_name
                    (Provision.aks_config ws) w) as [[e'|c] w'];
          (eexists _, _; split; [by rewrite <- app_assoc|]; split; [done|];
           right; split; [reflexivity|]; by left).
    + exists [], []. simpl. rewrite app_nil_r. split; [done|]. split; [done|].
      left. split; [done|]. by left.
  - rewrite (provision_lookup_returns _ _ _ _ _ Hl). simpl.
    exists [], [Provision.found_message k]. split; [done|]. split; [done|].
    left. split; [done|]. by right.
Qed.
